(** * Feature Visibility Toggle: the visibility flag and the filter rules

    A shallow embedding of the host-independent logic of
    [feature_visibility_toggle.py]: the per-feature visibility flag kept in
    the reserved attribute [_fvt_vis], the attribute filter evaluator
    [feature_matches_filters], the feature list population of
    [on_layer_selected] and the text format in which [save_settings] and
    [load_settings] keep the filter rules.

    Python strings are modelled as [string] (characters are the code points
    below 256), Python integers as [Z], Python dictionaries as association
    lists in insertion order, and the calls into the host (QGIS layer,
    map canvas) as a state monad over a small model of one vector layer. *)

From Stdlib Require Import ZArith List String Ascii Bool Lia Permutation.
From Stdlib Require Import DecimalString.
Import ListNotations.

Local Open Scope string_scope.
Local Open Scope Z_scope.

(** ** Python string operations used by the plugin *)

Module PyStr.

(** The double quote character (it appears in the subset expression). *)
Definition dquote : ascii := "034"%char.

(** [s.startswith(p)] *)
Fixpoint startswith (s p : string) {struct p} : bool :=
  match p with
  | EmptyString => true
  | String a p' =>
      match s with
      | EmptyString => false
      | String b s' => (a =? b)%char && startswith s' p'
      end
  end.

(** [s.endswith(p)] *)
Fixpoint endswith (s p : string) : bool :=
  (s =? p)%string ||
  match s with
  | EmptyString => false
  | String _ s' => endswith s' p
  end.

(** [sub in s] *)
Fixpoint contains (s sub : string) : bool :=
  startswith s sub ||
  match s with
  | EmptyString => false
  | String _ s' => contains s' sub
  end.

(** The scan of [str.replace] for a non-empty [old]: occurrences are taken
    leftmost first and do not overlap; [skip] counts the characters of a
    matched occurrence that are still to be dropped. *)
Fixpoint replace_from (old new : string) (skip : nat) (s : string) : string :=
  match s with
  | EmptyString => EmptyString
  | String c rest =>
      match skip with
      | S k => replace_from old new k rest
      | O =>
          if startswith s old
          then new ++ replace_from old new (Nat.pred (String.length old)) rest
          else String c (replace_from old new 0 rest)
      end
  end.

(** With an empty [old] Python puts [new] before every character and at
    the end. *)
Fixpoint intersperse (new s : string) : string :=
  match s with
  | EmptyString => new
  | String c rest => new ++ String c (intersperse new rest)
  end.

(** [s.replace(old, new)] *)
Definition replace (s old new : string) : string :=
  match old with
  | EmptyString => intersperse new s
  | String _ _ => replace_from old new 0 s
  end.

(** [s.split(sep)] and [s.split(sep, maxsplit)] for a separator of one
    character ([maxsplit = None] is the call without the second argument). *)
Fixpoint split (sep : ascii) (maxsplit : option nat) (s : string) : list string :=
  match s with
  | EmptyString => [EmptyString]
  | String c rest =>
      let cut :=
        (c =? sep)%char &&
        match maxsplit with Some O => false | _ => true end in
      if cut
      then EmptyString ::
           split sep (match maxsplit with Some n => Some (Nat.pred n) | None => None end) rest
      else match split sep maxsplit rest with
           | [] => [String c EmptyString]
           | h :: t => String c h :: t
           end
  end.

(** [sep.join(parts)] *)
Definition join (sep : string) (parts : list string) : string :=
  String.concat sep parts.

Definition smap (f : ascii -> ascii) : string -> string :=
  fix go (s : string) : string :=
    match s with
    | EmptyString => EmptyString
    | String c rest => String (f c) (go rest)
    end.

(** [c.lower()] on the code points below 256: the letters A-Z and the
    Latin-1 capitals 192-222 (215, the multiplication sign, excepted). *)
Definition lower_char (c : ascii) : ascii :=
  let n := nat_of_ascii c in
  if ((65 <=? n) && (n <=? 90))%nat then ascii_of_nat (n + 32)
  else if ((192 <=? n) && (n <=? 222) && negb (n =? 215))%nat then ascii_of_nat (n + 32)
  else c.

(** [s.lower()] *)
Definition lower : string -> string := smap lower_char.

(** [c.isspace()] on the code points below 256. *)
Definition isspace (c : ascii) : bool :=
  let n := nat_of_ascii c in
  (((9 <=? n) && (n <=? 13)) || ((28 <=? n) && (n <=? 32)) ||
   (n =? 133) || (n =? 160))%nat.

Fixpoint lstrip (s : string) : string :=
  match s with
  | EmptyString => EmptyString
  | String c rest => if isspace c then lstrip rest else s
  end.

Fixpoint rstrip (s : string) : string :=
  match s with
  | EmptyString => EmptyString
  | String c rest =>
      match rstrip rest with
      | EmptyString => if isspace c then EmptyString else String c EmptyString
      | r => String c r
      end
  end.

(** [s.strip()] *)
Definition strip (s : string) : string := rstrip (lstrip s).

(** [str(n)] for an integer. *)
Definition str_of_int (n : Z) : string :=
  NilZero.string_of_int (Z.to_int n).

End PyStr.

(** ** Python dictionaries, in insertion order *)

Module Dict.
Section Dict.
Context {K V : Type} (eqb : K -> K -> bool).

Definition dict : Type := list (K * V).

(** [d.get(k)] *)
Fixpoint get (k : K) (d : dict) : option V :=
  match d with
  | [] => None
  | (k', v) :: rest => if eqb k k' then Some v else get k rest
  end.

(** [k in d] *)
Definition mem (k : K) (d : dict) : bool :=
  match get k d with Some _ => true | None => false end.

(** [d[k] = v]: an existing key keeps its place, a new key goes last. *)
Fixpoint set (k : K) (v : V) (d : dict) : dict :=
  match d with
  | [] => [(k, v)]
  | (k', v') :: rest =>
      if eqb k k' then (k', v) :: rest else (k', v') :: set k v rest
  end.

(** The keys of [d], as [d.items()] lists them. *)
Definition keys (d : dict) : list K := map fst d.
End Dict.
End Dict.

Arguments Dict.dict : clear implicits.

(** ** The filter rules and their text format in the settings store *)

(** One rule: the value of [layer_filters[layer_id][field_name]], a
    dictionary with the two keys ['type'] and ['value'], which both
    [get_filters] and [load_settings] always set. *)
Record FilterData : Type := mkFilterData {
  filter_type : string;
  filter_value : string
}.

Definition Filters : Type := Dict.dict string FilterData.

(** [save_settings], "Escape special characters". *)
Definition escape (s : string) : string :=
  PyStr.replace (PyStr.replace s ":" "_COLON_") "|" "_PIPE_".

(** [load_settings], "Unescape special characters". *)
Definition unescape (s : string) : string :=
  PyStr.replace (PyStr.replace s "_COLON_" ":") "_PIPE_" "|".

(** [save_settings]: the text of one rule, the three escaped components
    with colons between them. *)
Definition rule_text (item : string * FilterData) : string :=
  escape (fst item) ++ ":" ++ escape (filter_type (snd item))
    ++ ":" ++ escape (filter_value (snd item)).

(** [save_settings]: the list [filters_parts] built from one layer's rules. *)
Definition filters_parts (layer_filters : Filters) : list string :=
  map rule_text layer_filters.

(** [save_settings]: what is written under the key ["filters"] of the
    layer's group; [None] when [filters_parts] is empty and nothing is
    written. *)
Definition save_filters (layer_filters : Filters) : option string :=
  match filters_parts layer_filters with
  | [] => None
  | parts => Some (PyStr.join "|" parts)
  end.

(** [settings.value("filters", default)]: the stored text, or the empty
    default. *)
Definition settings_value (stored : option string) : string :=
  match stored with Some s => s | None => EmptyString end.

(** [load_settings]: one [filter_part] of the stored text. *)
Definition load_filter_part (layer_filters : Filters) (filter_part : string) : Filters :=
  if PyStr.contains filter_part ":" then
    match PyStr.split ":" (Some 2%nat) filter_part with
    | p0 :: p1 :: p2 :: _ =>
        Dict.set String.eqb (unescape p0)
          (mkFilterData (unescape p1) (unescape p2)) layer_filters
    | _ => layer_filters
    end
  else layer_filters.

(** [load_settings]: the rules read from the stored text [filters_str];
    [None] when no entry is made for the layer. *)
Definition load_filters (filters_str : string) : option Filters :=
  if (filters_str =? EmptyString)%string then None
  else
    match fold_left load_filter_part (PyStr.split "|" None filters_str) [] with
    | [] => None
    | layer_filters => Some layer_filters
    end.

(** [self.layer_filters.get(layer_id, {})] *)
Definition layer_filters_get (entry : option Filters) : Filters :=
  match entry with Some f => f | None => [] end.

(** Saving one layer's rules and loading them again. *)
Definition reload_filters (layer_filters : Filters) : Filters :=
  layer_filters_get (load_filters (settings_value (save_filters layer_filters))).

(** ** Python values and [float] *)

(** What the evaluator needs of Python's [float]: conversion from an
    integer and from text, the text of a float, and the comparisons.
    [float_of_str] is [None] where [float(text)] raises [ValueError]. *)
Class PyFloat : Type := {
  float : Type;
  float_of_int : Z -> float;
  float_of_str : string -> option float;
  float_str : float -> string;
  float_gtb : float -> float -> bool;
  float_ltb : float -> float -> bool;
  float_eqb : float -> float -> bool
}.

(** An instance to run examples with: floats that are whole numbers,
    written as decimal digits with an optional minus sign. *)
Definition WholeFloat : PyFloat := {|
  float := Z;
  float_of_int := fun n => n;
  float_of_str := fun s =>
    match NilZero.int_of_string (PyStr.strip s) with
    | Some d => Some (Z.of_int d)
    | None => None
    end;
  float_str := fun x => PyStr.str_of_int x ++ ".0";
  float_gtb := Z.gtb;
  float_ltb := Z.ltb;
  float_eqb := Z.eqb
|}.

Section Plugin.
Context {PF : PyFloat}.

(** The value of an attribute, as Python sees it. [PyObject] is any other
    host object (a date, a geometry), known by its [str] text; [float]
    raises [TypeError] on it. Integers of the host have 64 bits, so
    [float] never overflows on them. *)
Inductive PyValue : Type :=
| PyNone
| PyBool (b : bool)
| PyInt (n : Z)
| PyFloatV (x : float)
| PyString (s : string)
| PyObject (text : string).

(** [str(v)] *)
Definition py_str (v : PyValue) : string :=
  match v with
  | PyNone => "None"
  | PyBool b => if b then "True" else "False"
  | PyInt n => PyStr.str_of_int n
  | PyFloatV x => float_str x
  | PyString s => s
  | PyObject text => text
  end.

(** [float(v)]; [None] where it raises [ValueError] or [TypeError]. *)
Definition py_float (v : PyValue) : option float :=
  match v with
  | PyNone => None
  | PyBool b => Some (float_of_int (if b then 1 else 0))
  | PyInt n => Some (float_of_int n)
  | PyFloatV x => Some x
  | PyString s => float_of_str s
  | PyObject _ => None
  end.

(** [v is not None] *)
Definition is_not_none (v : PyValue) : bool :=
  match v with PyNone => false | _ => true end.

(** [v != 0] *)
Definition ne_zero (v : PyValue) : bool :=
  match v with
  | PyNone => true
  | PyBool b => b
  | PyInt n => negb (n =? 0)
  | PyFloatV x => negb (float_eqb x (float_of_int 0))
  | PyString _ => true
  | PyObject _ => true
  end.

(** The null the host hands out for a NULL attribute: PyQGIS gives a null
    QVariant object, which it names [NULL]. It is an object and not
    [None]: [NULL is not None] holds, [NULL != 0] holds, its text is
    "NULL", and [float] raises [TypeError] on it. *)
Definition NULL : PyValue := PyObject "NULL".

(** ** The host's vector layer *)

Record Feature : Type := mkFeature {
  id : Z;
  attributes : list PyValue
}.

Record Layer : Type := mkLayer {
  layer_id : string;
  fields : list string;
  features : list Feature;
  isEditable : bool;
  subsetString : string
}.

(** [fields.indexOf(name)]: the position of the first field of that name,
    or -1. *)
Fixpoint indexOf (fs : list string) (name : string) : Z :=
  match fs with
  | [] => -1
  | f :: rest =>
      if (f =? name)%string then 0
      else let i := indexOf rest name in
           if i <? 0 then -1 else i + 1
  end.

(** [feature.attribute(idx)]; the host gives a null value for a position
    the record does not have. *)
Definition attribute (feature : Feature) (idx : Z) : PyValue :=
  nth (Z.to_nat idx) (attributes feature) PyNone.

(** The name of the reserved field. *)
Definition vis_field_name : string := "_fvt_vis".

(** The expression [update_layer_visibility] installs:
    the field name in double quotes, then [ = 1]. *)
Definition vis_subset_string : string :=
  String PyStr.dquote vis_field_name ++ String PyStr.dquote " = 1".

(** The host's reading of a subset expression, for the two forms the
    plugin installs: the empty text keeps every record, and the reserved
    field compared to 1 keeps the records whose integer value is 1 (a null
    value is not equal to 1). Any other text is not interpreted here and
    keeps every record. *)
Definition subset_accepts (l : Layer) (feature : Feature) : bool :=
  if (subsetString l =? vis_subset_string)%string then
    let idx := indexOf (fields l) vis_field_name in
    if idx <? 0 then false
    else match attribute feature idx with
         | PyInt n => n =? 1
         | _ => false
         end
  else true.

(** [layer.getFeatures()]: the records the subset expression keeps. *)
Definition getFeatures (l : Layer) : list Feature :=
  filter (subset_accepts l) (features l).

(** ** The filter evaluator *)

(** The comparison of one rule, [matches] in [feature_matches_filters];
    [filter_value] is the rule text after [strip]. *)
Definition rule_matches (filter_type : string) (feature_value : PyValue)
    (filter_value : string) : bool :=
  let feature_value_str :=
    match feature_value with
    | PyNone => EmptyString
    | v => PyStr.lower (py_str v)
    end in
  let filter_value_lower := PyStr.lower filter_value in
  let feature_num :=
    match feature_value with
    | PyNone => Some (float_of_int 0)
    | v => py_float v
    end in
  if (filter_type =? "Contains")%string then
    PyStr.contains feature_value_str filter_value_lower
  else if (filter_type =? "Equals")%string then
    (feature_value_str =? filter_value_lower)%string
  else if (filter_type =? "Starts with")%string then
    PyStr.startswith feature_value_str filter_value_lower
  else if (filter_type =? "Ends with")%string then
    PyStr.endswith feature_value_str filter_value_lower
  else if (filter_type =? "Greater than")%string then
    match feature_num, float_of_str filter_value with
    | Some a, Some b => float_gtb a b
    | _, _ => false
    end
  else if (filter_type =? "Less than")%string then
    match feature_num, float_of_str filter_value with
    | Some a, Some b => float_ltb a b
    | _, _ => false
    end
  else false.

(** One turn of the loop of [feature_matches_filters]: [true] when the
    loop goes on to the next rule (the rule is skipped by [continue], or
    it matches), [false] when the function returns [False]. *)
Definition rule_passes (feature : Feature) (layer : Layer)
    (item : string * FilterData) : bool :=
  let (field_name, filter_data) := item in
  let filter_value := PyStr.strip (filter_value filter_data) in
  if (filter_value =? EmptyString)%string then true
  else
    let field_idx := indexOf (fields layer) field_name in
    if field_idx <? 0 then true
    else rule_matches (filter_type filter_data) (attribute feature field_idx) filter_value.

(** The loop of [feature_matches_filters], with the number of rules it
    has looked at when it returns. *)
Fixpoint filters_loop (feature : Feature) (layer : Layer)
    (items : list (string * FilterData)) : bool * nat :=
  match items with
  | [] => (true, 0%nat)
  | item :: rest =>
      if rule_passes feature layer item
      then let (r, n) := filters_loop feature layer rest in (r, S n)
      else (false, 1%nat)
  end.

(** [feature_matches_filters(feature, layer, filters)] *)
Definition feature_matches_filters (feature : Feature) (layer : Layer)
    (filters : Filters) : bool :=
  match filters with
  | [] => true
  | _ => fst (filters_loop feature layer filters)
  end.

(** ** Populating the feature list *)

(** [is_visible] in [on_layer_selected]. *)
Definition is_visible (vis_field_idx : Z) (feature : Feature) : bool :=
  if vis_field_idx >=? 0 then
    let vis_value := attribute feature vis_field_idx in
    is_not_none vis_value && ne_zero vis_value
  else true.

(** A row of [features_data]. *)
Definition Row : Type := (Z * Feature * bool)%type.

(** The loop of [on_layer_selected] over the layer's features; [seen] is
    [self.feature_visibility[layer_id]]. *)
Fixpoint populate_loop (layer : Layer) (active_filters : Filters)
    (vis_field_idx : Z) (feature_limit : option Z) (fs : list Feature)
    (seen : Dict.dict Z bool) (features_data : list Row)
    : Dict.dict Z bool * list Row :=
  match fs with
  | [] => (seen, features_data)
  | feature :: rest =>
      let fid := id feature in
      if negb (feature_matches_filters feature layer active_filters)
      then populate_loop layer active_filters vis_field_idx feature_limit rest
             seen features_data
      else
        let vis := is_visible vis_field_idx feature in
        let seen' :=
          if negb (Dict.mem Z.eqb fid seen) then Dict.set Z.eqb fid vis seen
          else seen in
        let features_data' := (features_data ++ [(fid, feature, vis)])%list in
        let stop :=
          match feature_limit with
          | Some n => negb (n =? 0) && (Z.of_nat (List.length features_data') >=? n)
          | None => false
          end in
        if stop then (seen', features_data')
        else populate_loop layer active_filters vis_field_idx feature_limit rest
               seen' features_data'
  end.

(** The settings the plugin object holds. *)
Record Settings : Type := mkSettings {
  feature_visibility : Dict.dict string (Dict.dict Z bool);
  layer_attributes : Dict.dict string (list string);
  layer_filters : Dict.dict string Filters;
  feature_limit : Z
}.

(** [active_filters]: the rules of the fields that are selected. *)
Definition active_filters_of (layer_filters : Filters)
    (selected_attrs : list string) : Filters :=
  filter (fun item : string * FilterData =>
            existsb (String.eqb (fst item)) selected_attrs)
         layer_filters.

(** The population pass of [on_layer_selected] on a layer: the new
    tracking dictionary of the layer and [features_data]. *)
Definition populate (st : Settings) (layer : Layer)
    : Dict.dict Z bool * list Row :=
  let seen :=
    match Dict.get String.eqb (layer_id layer) (feature_visibility st) with
    | Some d => d
    | None => []
    end in
  let vis_field_idx := indexOf (fields layer) vis_field_name in
  let selected_attrs :=
    match Dict.get String.eqb (layer_id layer) (layer_attributes st) with
    | Some l => l
    | None => []
    end in
  let layer_filters :=
    match Dict.get String.eqb (layer_id layer) (layer_filters st) with
    | Some f => f
    | None => []
    end in
  let active_filters := active_filters_of layer_filters selected_attrs in
  let feature_limit :=
    if feature_limit st >? 0 then Some (feature_limit st) else None in
  populate_loop layer active_filters vis_field_idx feature_limit
    (getFeatures layer) seen [].

(** ** Calls into the host *)

(** The calls the plugin makes that change the layer or ask for a redraw. *)
Inductive HostCall : Type :=
| StartEditing
| AddAttribute (name : string)
| CommitChanges (ok : bool)
| ChangeAttributeValue (fid idx : Z) (v : PyValue)
| SetSubsetString (s : string)
| TriggerRepaint
| CanvasRefresh.

(** The layer, the answers the host will give to the coming
    [commitChanges] calls (it accepts once the list is used up), and the
    calls made so far, oldest first. *)
Record World : Type := mkWorld {
  layer : Layer;
  commit_answers : list bool;
  calls : list HostCall
}.

Definition Host (A : Type) : Type := World -> A * World.

Definition ret {A : Type} (a : A) : Host A := fun w => (a, w).

Definition bind {A B : Type} (m : Host A) (k : A -> Host B) : Host B :=
  fun w => let (a, w') := m w in k a w'.

Notation "x <- m ;; k" := (bind m (fun x => k))
  (at level 61, m at next level, right associativity).
Notation "m ;; k" := (bind m (fun _ => k))
  (at level 61, right associativity).

Definition called (c : HostCall) (l : Layer) : Host unit :=
  fun w => (tt, mkWorld l (commit_answers w) (calls w ++ [c])%list).

Definition get_layer : Host Layer := fun w => (layer w, w).

(** [layer.fields().indexOf(name)] *)
Definition fields_indexOf (name : string) : Host Z :=
  l <- get_layer ;; ret (indexOf (fields l) name).

(** [layer.startEditing()] *)
Definition startEditing : Host unit :=
  l <- get_layer ;;
  called StartEditing
    (mkLayer (layer_id l) (fields l) (features l) true (subsetString l)).

(** [layer.addAttribute(QgsField(name, QVariant.Int))]: the new field
    comes last and is null on every record. *)
Definition addAttribute (name : string) : Host unit :=
  l <- get_layer ;;
  called (AddAttribute name)
    (mkLayer (layer_id l) (fields l ++ [name])%list
       (map (fun f => mkFeature (id f) (attributes f ++ [PyNone])%list) (features l))
       (isEditable l) (subsetString l)).

(** [layer.commitChanges()]: on success the layer leaves edit mode, on
    failure it stays in edit mode with the changes pending. *)
Definition commitChanges : Host bool :=
  fun w =>
    let l := layer w in
    let ok := match commit_answers w with [] => true | b :: _ => b end in
    (ok,
     mkWorld
       (mkLayer (layer_id l) (fields l) (features l)
          (if ok then false else isEditable l) (subsetString l))
       (tl (commit_answers w))
       (calls w ++ [CommitChanges ok])%list).

Fixpoint set_nth (n : nat) (v : PyValue) (vs : list PyValue) : list PyValue :=
  match n, vs with
  | O, _ :: rest => v :: rest
  | O, [] => [v]
  | S k, x :: rest => x :: set_nth k v rest
  | S k, [] => PyNone :: set_nth k v []
  end.

(** [layer.changeAttributeValue(fid, idx, v)]; it changes nothing on a
    layer that is not in edit mode. *)
Definition changeAttributeValue (fid idx : Z) (v : PyValue) : Host unit :=
  l <- get_layer ;;
  called (ChangeAttributeValue fid idx v)
    (if isEditable l then
       mkLayer (layer_id l) (fields l)
         (map (fun f =>
                 if id f =? fid
                 then mkFeature (id f) (set_nth (Z.to_nat idx) v (attributes f))
                 else f)
              (features l))
         (isEditable l) (subsetString l)
     else l).

(** [layer.setSubsetString(s)] *)
Definition setSubsetString (s : string) : Host unit :=
  l <- get_layer ;;
  called (SetSubsetString s)
    (mkLayer (layer_id l) (fields l) (features l) (isEditable l) s).

(** [layer.triggerRepaint()] *)
Definition triggerRepaint : Host unit :=
  l <- get_layer ;; called TriggerRepaint l.

(** [self.iface.mapCanvas().refresh()] *)
Definition canvas_refresh : Host unit :=
  l <- get_layer ;; called CanvasRefresh l.

(** A [for] loop over records. *)
Fixpoint for_each (fs : list Feature) (body : Feature -> Host unit) : Host unit :=
  match fs with
  | [] => ret tt
  | f :: rest => body f ;; for_each rest body
  end.

(** ** The visibility flag *)

(** [ensure_visibility_field(layer)] *)
Definition ensure_visibility_field : Host bool :=
  let field_name := vis_field_name in
  field_idx <- fields_indexOf field_name ;;
  if field_idx =? -1 then
    l <- get_layer ;;
    if isEditable l then ret false
    else
      startEditing ;;
      addAttribute field_name ;;
      success <- commitChanges ;;
      if success then
        field_idx <- fields_indexOf field_name ;;
        (if field_idx >=? 0 then
           startEditing ;;
           l <- get_layer ;;
           for_each (getFeatures l)
             (fun feature => changeAttributeValue (id feature) field_idx (PyInt 1)) ;;
           _ <- commitChanges ;;
           ret tt
         else ret tt) ;;
        ret true
      else ret false
  else ret true.

(** [update_feature_visibility_field(layer, feature_id, visible)] *)
Definition update_feature_visibility_field (feature_id : Z) (visible : bool)
    : Host unit :=
  field_idx <- fields_indexOf vis_field_name ;;
  if field_idx =? -1 then ret tt
  else
    l <- get_layer ;;
    if isEditable l then ret tt
    else
      startEditing ;;
      let value := if visible then 1 else 0 in
      changeAttributeValue feature_id field_idx (PyInt value) ;;
      _ <- commitChanges ;;
      ret tt.

(** [update_layer_visibility(layer)] *)
Definition update_layer_visibility : Host unit :=
  field_idx <- fields_indexOf vis_field_name ;;
  if field_idx =? -1 then
    setSubsetString EmptyString
  else
    setSubsetString vis_subset_string ;;
    triggerRepaint ;;
    canvas_refresh.

(** [on_layer_selected], without the widgets: the reserved field is
    ensured, the list is populated, the subset expression is set. It gives
    the tracking dictionary with the layer's entry renewed, and
    [features_data]. *)
Definition on_layer_selected (st : Settings)
    : Host (Dict.dict string (Dict.dict Z bool) * list Row) :=
  _ <- ensure_visibility_field ;;
  l <- get_layer ;;
  let (seen, features_data) := populate st l in
  update_layer_visibility ;;
  ret (Dict.set String.eqb (layer_id l) seen (feature_visibility st), features_data).

(** The redraw requests among the calls made. *)
Definition is_redraw (c : HostCall) : bool :=
  match c with
  | TriggerRepaint | CanvasRefresh => true
  | _ => false
  end.

(** ** The checkbox handler and the teardown *)

(** [on_feature_checkbox_changed], without the widgets: the tracking
    dictionary takes the new state, the flag is written and the subset
    expression is set again. It gives the new tracking dictionary. *)
Definition on_feature_checkbox_changed
    (feature_visibility : Dict.dict string (Dict.dict Z bool))
    (feature_id : Z) (visible : bool)
    : Host (Dict.dict string (Dict.dict Z bool)) :=
  l <- get_layer ;;
  let tracked :=
    match Dict.get String.eqb (layer_id l) feature_visibility with
    | Some d => d
    | None => []
    end in
  let feature_visibility' :=
    Dict.set String.eqb (layer_id l)
      (Dict.set Z.eqb feature_id visible tracked) feature_visibility in
  update_feature_visibility_field feature_id visible ;;
  update_layer_visibility ;;
  ret feature_visibility'.

(** The list without its element at position [n]. *)
Fixpoint remove_nth {A : Type} (n : nat) (l : list A) : list A :=
  match l with
  | [] => []
  | x :: rest =>
      match n with
      | O => rest
      | S k => x :: remove_nth k rest
      end
  end.

(** [layer.deleteAttribute(idx)]: the field and its value on every record
    go. *)
Definition delete_attribute (idx : Z) (l : Layer) : Layer :=
  mkLayer (layer_id l) (remove_nth (Z.to_nat idx) (fields l))
    (map (fun f => mkFeature (id f) (remove_nth (Z.to_nat idx) (attributes f)))
       (features l))
    (isEditable l) (subsetString l).

(** The body of the loop of [cleanup_visibility_fields] for one vector
    layer; [commit_ok] is the host's answer to [commitChanges]. *)
Definition cleanup_layer (commit_ok : bool) (l : Layer) : Layer :=
  let field_idx := indexOf (fields l) vis_field_name in
  if field_idx >=? 0 then
    let l1 :=
      mkLayer (layer_id l) (fields l) (features l) (isEditable l) EmptyString in
    if negb (isEditable l1) then
      let l2 := delete_attribute field_idx l1 in
      mkLayer (layer_id l2) (fields l2) (features l2)
        (if commit_ok then false else true) (subsetString l2)
    else l1
  else l.

(** [cleanup_visibility_fields] over the vector layers of the project;
    [commit_ok] gives the host's answer for each layer. *)
Definition cleanup_visibility_fields (commit_ok : string -> bool)
    (layers : Dict.dict string Layer) : Dict.dict string Layer :=
  map (fun entry : string * Layer =>
         (fst entry, cleanup_layer (commit_ok (fst entry)) (snd entry)))
      layers.

(** The flag values the plugin itself writes: the integers 0 and 1. The
    host's null and [None] are not among them. *)
Definition plugin_flag (v : PyValue) : bool :=
  match v with
  | PyInt n => (n =? 0) || (n =? 1)
  | _ => false
  end.

(** ** Notions the statements below use *)

(** The row [on_layer_selected] makes of a feature. *)
Definition row_of (idx : Z) (feature : Feature) : Row :=
  (id feature, feature, is_visible idx feature).

(** The record as [changeAttributeValue] leaves it. *)
Definition with_value (fid : Z) (n : nat) (v : PyValue) (f : Feature) : Feature :=
  if id f =? fid then mkFeature (id f) (set_nth n v (attributes f)) else f.

(** The record after [changeAttributeValue] for every id of [ids]. *)
Definition marked (ids : list Z) (n : nat) (v : PyValue) (f : Feature) : Feature :=
  if existsb (Z.eqb (id f)) ids
  then mkFeature (id f) (set_nth n v (attributes f))
  else f.

(** Every record has a value for every field. *)
Definition well_formed (l : Layer) : Prop :=
  Forall (fun f => List.length (attributes f) = List.length (fields l)) (features l).

(** The flags of the layer are all of the plugin's kind. *)
Definition plugin_flags (l : Layer) : Prop :=
  Forall (fun f => plugin_flag (attribute f (indexOf (fields l) vis_field_name)) = true)
    (features l).

End Plugin.

Arguments PyValue : clear implicits.
Arguments PyValue {PF}.

(** The six comparison kinds [feature_matches_filters] knows. *)
Definition known_kinds : list string :=
  ["Contains"; "Equals"; "Starts with"; "Ends with"; "Greater than"; "Less than"].

(** ** The settings store *)

(** [save_settings]: the text written under the key ["attributes"]. *)
Definition save_attributes (attrs_list : list string) : string :=
  PyStr.join "," attrs_list.

(** [load_settings]: the entry made from the stored text [attrs_str];
    [None] when the text is empty and no entry is made. *)
Definition load_attributes (attrs_str : string) : option (list string) :=
  if (attrs_str =? EmptyString)%string then None
  else Some (PyStr.split "," None attrs_str).

(** The keys of one layer's group in the store. *)
Record Group : Type := mkGroup {
  attributes_value : option string;
  filters_value : option string
}.

(** What the plugin keeps under the group ["FeatureVisibilityToggle"] of
    the host's settings: the key ["featureLimit"] and one child group for
    each layer id. *)
Record Store : Type := mkStore {
  featureLimit_value : option Z;
  groups : Dict.dict string Group
}.

(** [save_settings]: the group of one layer once its keys are written;
    [g] is the group as it was. *)
Definition layer_group (layer_filters : Dict.dict string Filters) (g : Group)
    (layer_id : string) (attrs_list : list string) : Group :=
  let g1 := mkGroup (Some (save_attributes attrs_list)) (filters_value g) in
  match Dict.get String.eqb layer_id layer_filters with
  | Some rules =>
      match save_filters rules with
      | Some text => mkGroup (attributes_value g1) (Some text)
      | None => g1
      end
  | None => g1
  end.

(** [save_settings]: the turn of the loop for one layer. *)
Definition save_layer (layer_filters : Dict.dict string Filters)
    (gs : Dict.dict string Group) (entry : string * list string)
    : Dict.dict string Group :=
  let layer_id := fst entry in
  let g :=
    match Dict.get String.eqb layer_id gs with
    | Some g => g
    | None => mkGroup None None
    end in
  Dict.set String.eqb layer_id
    (layer_group layer_filters g layer_id (snd entry)) gs.

(** [save_settings]: the limit is written, every child group not named
    ["featureLimit"] is removed, then each layer of [layer_attributes]
    gets its group. *)
Definition save_settings (st : Settings) (store : Store) : Store :=
  let kept :=
    filter (fun e : string * Group => (fst e =? "featureLimit")%string)
      (groups store) in
  mkStore (Some (feature_limit st))
    (fold_left (save_layer (layer_filters st)) (layer_attributes st) kept).

(** [load_settings]: the turn of the loop for one child group. *)
Definition load_layer (st : Settings) (entry : string * Group) : Settings :=
  let layer_id := fst entry in
  if (layer_id =? "featureLimit")%string then st
  else
    let attrs' :=
      match load_attributes (settings_value (attributes_value (snd entry))) with
      | Some attrs_list =>
          Dict.set String.eqb layer_id attrs_list (layer_attributes st)
      | None => layer_attributes st
      end in
    let filters' :=
      match load_filters (settings_value (filters_value (snd entry))) with
      | Some rules => Dict.set String.eqb layer_id rules (layer_filters st)
      | None => layer_filters st
      end in
    mkSettings (feature_visibility st) attrs' filters' (feature_limit st).

(** [load_settings]: the limit is read (0 when it is not stored), then
    every child group is read. *)
Definition load_settings (store : Store) (st : Settings) : Settings :=
  let limit :=
    match featureLimit_value store with Some n => n | None => 0 end in
  fold_left load_layer (groups store)
    (mkSettings (feature_visibility st) (layer_attributes st)
       (layer_filters st) limit).

(** The settings of a plugin object that has just been made. *)
Definition fresh_settings : Settings := mkSettings [] [] [] 0.

(** ** The settings dialog *)

(** The entries of the filter kind drop-down. *)
Definition combo_items : list string :=
  ["No filter"; "Contains"; "Equals"; "Starts with"; "Ends with";
   "Greater than"; "Less than"].

(** The filter widgets of one field: the index chosen in the drop-down
    and the text of the line edit. *)
Record FilterWidgets : Type := mkFilterWidgets {
  currentIndex : nat;
  text : string
}.

(** [combo.currentText()] *)
Definition currentText (w : FilterWidgets) : string :=
  nth (currentIndex w) combo_items EmptyString.

(** [combo.findText(t)]: the index of the entry equal to [t], or -1. *)
Fixpoint findText (items : list string) (t : string) : Z :=
  match items with
  | [] => -1
  | item :: rest =>
      if (item =? t)%string then 0
      else let i := findText rest t in
           if i <? 0 then -1 else i + 1
  end.

(** The widgets the dialog holds for one layer. *)
Record LayerWidgets : Type := mkLayerWidgets {
  checkboxes : Dict.dict string bool;
  filters : Dict.dict string FilterWidgets
}.

(** [SettingsDialog.__init__]: the widgets made for the fields of a
    layer, the reserved field left out. *)
Definition dialog_init (layer_fields : list string) : LayerWidgets :=
  fold_left
    (fun (d : LayerWidgets) (name : string) =>
       if negb (name =? "_fvt_vis")%string then
         mkLayerWidgets
           (Dict.set String.eqb name false (checkboxes d))
           (Dict.set String.eqb name (mkFilterWidgets 0 EmptyString) (filters d))
       else d)
    layer_fields (mkLayerWidgets [] []).

(** [get_selected_attributes], for one layer. *)
Definition get_selected_attributes (d : LayerWidgets) : list string :=
  map fst (filter (fun cb : string * bool => snd cb) (checkboxes d)).

(** [set_selected_attributes], for one layer of the dialog. *)
Definition set_selected_attributes (selected_attrs : list string)
    (d : LayerWidgets) : LayerWidgets :=
  mkLayerWidgets
    (map (fun cb : string * bool =>
            (fst cb, existsb (String.eqb (fst cb)) selected_attrs))
       (checkboxes d))
    (filters d).

(** [get_filters]: the rule read off the widgets of one field; none when
    the kind is "No filter" or the text is blank. *)
Definition widgets_rule (w : FilterWidgets) : option FilterData :=
  let filter_type := currentText w in
  let filter_value := PyStr.strip (text w) in
  if negb (filter_type =? "No filter")%string
     && negb (filter_value =? EmptyString)%string
  then Some (mkFilterData filter_type filter_value)
  else None.

(** [get_filters], for one layer. *)
Definition get_filters (d : LayerWidgets) : Filters :=
  fold_left
    (fun (layer_filters : Filters) (entry : string * FilterWidgets) =>
       match widgets_rule (snd entry) with
       | Some rule => Dict.set String.eqb (fst entry) rule layer_filters
       | None => layer_filters
       end)
    (filters d) [].

(** [set_filters]: the state the widgets of a field take from a rule; a
    kind the drop-down does not have selects its first entry,
    "No filter". *)
Definition rule_widgets (d : FilterData) : FilterWidgets :=
  let index := findText combo_items (filter_type d) in
  mkFilterWidgets (if index >=? 0 then Z.to_nat index else 0%nat)
    (filter_value d).

(** [set_filters], for one layer of the dialog: the rules of the fields
    the dialog has are put into their widgets. *)
Definition set_filters (layer_filters : Filters) (d : LayerWidgets) : LayerWidgets :=
  mkLayerWidgets (checkboxes d)
    (fold_left
       (fun (ws : Dict.dict string FilterWidgets) (entry : string * FilterData) =>
          if Dict.mem String.eqb (fst entry) ws
          then Dict.set String.eqb (fst entry) (rule_widgets (snd entry)) ws
          else ws)
       layer_filters (filters d)).

(** The rule the dialog gives back for a rule it was given: none for a
    kind it does not know or a blank text, else the rule with its text
    stripped. *)
Definition dialog_rule (d : FilterData) : option FilterData :=
  if existsb (String.eqb (filter_type d)) known_kinds
     && negb (PyStr.strip (filter_value d) =? EmptyString)%string
  then Some (mkFilterData (filter_type d) (PyStr.strip (filter_value d)))
  else None.

(** The four kinds that compare text. *)
Definition text_kinds : list string :=
  ["Contains"; "Equals"; "Starts with"; "Ends with"].

(** A rule the evaluator does not skip on this layer: its text is not
    blank and the layer has its field. *)
Definition rule_effective {PF : PyFloat} (l : Layer) (item : string * FilterData) : bool :=
  negb (PyStr.strip (filter_value (snd item)) =? EmptyString)%string &&
  (0 <=? indexOf (fields l) (fst item)).

(** How often the character [a] is in [s]. *)
Fixpoint count_char (a : ascii) (s : string) : nat :=
  match s with
  | EmptyString => 0%nat
  | String c rest =>
      if (c =? a)%char then S (count_char a rest) else count_char a rest
  end.

(** [s] has the character [a]. *)
Fixpoint has_char (a : ascii) (s : string) : bool :=
  match s with
  | EmptyString => false
  | String c rest => (a =? c)%char || has_char a rest
  end.

(** Every [a] of [s] replaced by [tok]. *)
Fixpoint subst_char (a : ascii) (tok : string) (s : string) : string :=
  match s with
  | EmptyString => EmptyString
  | String c rest =>
      if (a =? c)%char then tok ++ subst_char a tok rest
      else String c (subst_char a tok rest)
  end.

(** [escape] in one pass over the characters. *)
Fixpoint escape_chars (s : string) : string :=
  match s with
  | EmptyString => EmptyString
  | String c rest =>
      if (":" =? c)%char then "_COLON_" ++ escape_chars rest
      else if ("|" =? c)%char then "_PIPE_" ++ escape_chars rest
      else String c (escape_chars rest)
  end.

(** A word of characters that are none of the colon, the pipe and the
    underscore. *)
Fixpoint plain_word (w : string) : bool :=
  match w with
  | EmptyString => true
  | String a rest =>
      negb (":" =? a)%char && negb ("|" =? a)%char && negb ("_" =? a)%char
        && plain_word rest
  end.

(** [s] holds neither of the words the escape sequences are made of. *)
Definition word_free (s : string) : bool :=
  negb (PyStr.contains s "COLON") && negb (PyStr.contains s "PIPE").

(** The three components of a rule are free of those words. *)
Definition rule_word_free (item : string * FilterData) : bool :=
  word_free (fst item) && word_free (filter_type (snd item))
    && word_free (filter_value (snd item)).

(** ** Concrete layers for the examples *)

Module Examples.

(** A layer with a name field and the reserved field; feature 7 has the
    host's null as its flag, feature 8 the flag 2. *)
Definition null_flag_feature : @Feature WholeFloat :=
  mkFeature 7 [PyString "Jack"; NULL].

Definition odd_flag_feature : @Feature WholeFloat :=
  mkFeature 8 [PyString "Bob"; PyInt 2].

Definition flagged_layer : @Layer WholeFloat :=
  mkLayer "L1" ["name"; "_fvt_vis"] [null_flag_feature; odd_flag_feature]
    false EmptyString.

(** A layer that has no reserved field yet. *)
Definition plain_layer : @Layer WholeFloat :=
  mkLayer "L2" ["name"; "pop"]
    [mkFeature 1 [PyString "Jack"; PyString "250"];
     mkFeature 2 [PyString "Bob"; PyString "abc"];
     mkFeature 3 [PyString "Jacky"; PyNone]]
    false EmptyString.

Definition plain_settings (limit : Z) : Settings :=
  mkSettings [] [("L2", ["name"; "pop"])]
    [("L2", [("name", mkFilterData "Contains" "ac")])] limit.

End Examples.

(** ** More layers and settings for the examples *)

Module Scenes.

(** A layer whose flags the plugin has written: feature 1 is shown,
    feature 2 is hidden, feature 3 has [None] as its flag. *)
Definition toggled_layer : @Layer WholeFloat :=
  mkLayer "L3" ["name"; "_fvt_vis"]
    [mkFeature 1 [PyString "Jack"; PyInt 1];
     mkFeature 2 [PyString "Bob"; PyInt 0];
     mkFeature 3 [PyString "Jacky"; PyNone]]
    false EmptyString.

(** The same layer with the plugin's subset expression on it. *)
Definition filtered_layer : @Layer WholeFloat :=
  mkLayer "L3" ["name"; "_fvt_vis"] (features toggled_layer)
    false vis_subset_string.

(** The same layer while the user edits it. *)
Definition editing_layer : @Layer WholeFloat :=
  mkLayer "L3" ["name"; "_fvt_vis"] (features toggled_layer)
    true EmptyString.

(** A layer without the reserved field while the user edits it. *)
Definition editing_plain_layer : @Layer WholeFloat :=
  mkLayer "L2" ["name"; "pop"] (features Examples.plain_layer) true EmptyString.

(** A record the plugin has hidden, and one whose flag is [None]. *)
Definition hidden_feature : @Feature WholeFloat :=
  mkFeature 2 [PyString "Bob"; PyInt 0].

Definition none_flag_feature : @Feature WholeFloat :=
  mkFeature 3 [PyString "Jacky"; PyNone].

(** A layer where every flag is one the plugin wrote. *)
Definition written_layer : @Layer WholeFloat :=
  mkLayer "L5" ["name"; "_fvt_vis"]
    [mkFeature 1 [PyString "Jack"; PyInt 1]; hidden_feature]
    false EmptyString.

(** A record whose flag, and whose name, is the host's null. *)
Definition null_feature : @Feature WholeFloat :=
  mkFeature 9 [NULL; NULL].

(** A layer with a shown feature and the record with the null flag. *)
Definition null_flag_layer : @Layer WholeFloat :=
  mkLayer "L6" ["name"; "_fvt_vis"]
    [mkFeature 1 [PyString "Jack"; PyInt 1]; null_feature]
    false EmptyString.

(** Settings with attributes for two layers and rules for three. *)
Definition stored_settings : Settings :=
  mkSettings []
    [("L2", ["name"; "pop"]); ("L3", [])]
    [("L2", [("name", mkFilterData "Contains" "a:c")]);
     ("L4", [("name", mkFilterData "Equals" "x")])]
    25.

(** Rules handed to the dialog: one it knows, one of an unknown kind, one
    with a blank text, one on a field the layer does not have. *)
Definition offered_rules : Filters :=
  [("name", mkFilterData "Contains" " ac ");
   ("pop", mkFilterData "Matches" "1");
   ("kind", mkFilterData "Equals" "  ");
   ("gone", mkFilterData "Equals" "x")].

End Scenes.

(** * Properties *)

(** ** Reading the visibility flag *)

Section FlagProperties.
Context {PF : PyFloat}.

Lemma indexOf_range (fs : list string) (name : string) :
  indexOf fs name = -1 \/ 0 <= indexOf fs name.
Proof.
  induction fs as [|f rest IH]; simpl.
  - now left.
  - destruct (f =? name)%string; [right; lia|].
    destruct (Z.ltb_spec (indexOf rest name) 0); [now left | right; lia].
Qed.

Lemma indexOf_app_last (fs : list string) (name : string) :
  0 <= indexOf (fs ++ [name]) name.
Proof.
  induction fs as [|f rest IH]; simpl.
  - rewrite String.eqb_refl. lia.
  - destruct (f =? name)%string; [lia|].
    destruct (Z.ltb_spec (indexOf (rest ++ [name]) name) 0); lia.
Qed.


(** Every row of the populated list carries the flag as [is_visible]
    reads it from the row's feature. *)
Lemma populate_loop_rows (l : Layer) (flt : Filters) (idx : Z)
    (limit : option Z) (fs : list Feature) :
  forall (seen : Dict.dict Z bool) (acc : list Row),
    Forall (fun r : Row => r = (id (snd (fst r)), snd (fst r), is_visible idx (snd (fst r)))) acc ->
    Forall (fun r : Row => r = (id (snd (fst r)), snd (fst r), is_visible idx (snd (fst r))))
      (snd (populate_loop l flt idx limit fs seen acc)).
Proof.
  induction fs as [|f rest IH]; intros seen acc Hacc; simpl; [exact Hacc|].
  destruct (feature_matches_filters f l flt); simpl; [|now apply IH].
  assert (Hacc' : Forall (fun r : Row => r = (id (snd (fst r)), snd (fst r), is_visible idx (snd (fst r))))
                    (acc ++ [(id f, f, is_visible idx f)])).
  { apply Forall_app. split; [exact Hacc|]. constructor; [reflexivity|constructor]. }
  match goal with |- context [if ?b then _ else _] => destruct b end;
    [exact Hacc' | now apply IH].
Qed.

(** C9: the panel's read is decided by the test "not [None] and not
    equal to 0", not by "equal to 1": a stored integer reads as visible
    exactly when it is not 0, and [None] reads as hidden. The subset
    expression that [update_layer_visibility] installs keeps a record
    exactly when its flag is the integer 1. So a stored integer other
    than 0 and 1 (2, -1) reads as visible in the panel while the
    expression leaves the feature out; the host's null passes the test
    as well, being an object that is neither [None] nor equal to 0. *)
Theorem nonzero_flag_reads_visible (w : World) (feature : Feature) :
  let idx := indexOf (fields (layer w)) vis_field_name in
  let w' := snd (update_layer_visibility w) in
  0 <= idx ->
  subsetString (layer w') = vis_subset_string /\
  (forall v : Z,
     attribute feature idx = PyInt v ->
     is_visible idx feature = negb (v =? 0) /\
     subset_accepts (layer w') feature = (v =? 1) /\
     (v <> 0 -> v <> 1 ->
      is_visible idx feature = true /\
      subset_accepts (layer w') feature = false)) /\
  (attribute feature idx = PyNone ->
   is_visible idx feature = false /\
   subset_accepts (layer w') feature = false) /\
  (attribute feature idx = NULL ->
   is_visible idx feature = true /\
   subset_accepts (layer w') feature = false).
Proof.
  intros idx w' Hidx.
  assert (Hl : layer w' =
    mkLayer (layer_id (layer w)) (fields (layer w)) (features (layer w))
      (isEditable (layer w)) vis_subset_string).
  { unfold w', update_layer_visibility, bind, fields_indexOf, get_layer, ret.
    simpl. fold idx.
    destruct (Z.eqb_spec idx (-1)) as [Heq|_]; [lia|reflexivity]. }
  assert (Hacc : subset_accepts (layer w') feature =
                 match attribute feature idx with
                 | PyInt n => n =? 1
                 | _ => false
                 end).
  { rewrite Hl. unfold subset_accepts. simpl. fold idx.
    destruct (Z.ltb_spec idx 0) as [Hlt|_]; [lia|reflexivity]. }
  assert (Hvis : is_visible idx feature =
                 is_not_none (attribute feature idx) && ne_zero (attribute feature idx)).
  { unfold is_visible. destruct (Z.geb_spec idx 0) as [_|Hlt]; [reflexivity|lia]. }
  split; [now rewrite Hl|]. split.
  - intros v Hval. rewrite Hvis, Hacc, Hval. simpl.
    split; [reflexivity|]. split; [reflexivity|].
    intros H0 H1.
    destruct (Z.eqb_spec v 0); [contradiction|].
    destruct (Z.eqb_spec v 1); [contradiction|]. now split.
  - split.
    + intros Hnone. rewrite Hvis, Hacc, Hnone. now split.
    + intros Hnull. rewrite Hvis, Hacc, Hnull. now split.
Qed.

(** C3, as the code has it: when the reserved field exists the layer's
    subset expression becomes the reserved field compared to 1 and a
    redraw of the layer and of the canvas is requested; when it does not
    exist the expression becomes the empty text and the function returns
    with no redraw request. Nothing else of the layer changes. *)
Theorem update_layer_visibility_effect (w : World) :
  let l := layer w in
  let w' := snd (update_layer_visibility w) in
  if indexOf (fields l) vis_field_name =? -1 then
    layer w' = mkLayer (layer_id l) (fields l) (features l) (isEditable l) EmptyString /\
    calls w' = (calls w ++ [SetSubsetString EmptyString])%list
  else
    layer w' =
      mkLayer (layer_id l) (fields l) (features l) (isEditable l) vis_subset_string /\
    calls w' =
      (calls w ++ [SetSubsetString vis_subset_string; TriggerRepaint; CanvasRefresh])%list.
Proof.
  unfold update_layer_visibility, bind, fields_indexOf, get_layer, ret.
  simpl.
  destruct (indexOf (fields (layer w)) vis_field_name =? -1); simpl.
  - split; reflexivity.
  - split; [reflexivity|].
    now rewrite <- !app_assoc.
Qed.

Lemma ensure_present (w : World) :
  indexOf (fields (layer w)) vis_field_name <> -1 ->
  ensure_visibility_field w = (true, w).
Proof.
  intros Hhas.
  unfold ensure_visibility_field, bind, fields_indexOf, get_layer, ret. simpl.
  destruct (Z.eqb_spec (indexOf (fields (layer w)) vis_field_name) (-1));
    [contradiction | reflexivity].
Qed.

Lemma for_each_change_fields (idx : Z) (v : PyValue) (fs : list Feature) :
  forall w : World,
    fields (layer (snd (for_each fs
      (fun feature => changeAttributeValue (id feature) idx v) w))) =
    fields (layer w).
Proof.
  induction fs as [|f rest IH]; intros w; simpl; [reflexivity|].
  unfold bind at 1.
  destruct (changeAttributeValue (id f) idx v w) as [u w1] eqn:E.
  rewrite IH.
  unfold changeAttributeValue, bind, get_layer, called in E.
  injection E as _ <-. simpl.
  now destruct (isEditable (layer w)).
Qed.

Lemma ensure_has_field (w : World) :
  fst (ensure_visibility_field w) = true ->
  indexOf (fields (layer (snd (ensure_visibility_field w)))) vis_field_name <> -1.
Proof.
  destruct (Z.eq_dec (indexOf (fields (layer w)) vis_field_name) (-1)) as [Hno|Hhas].
  2: { rewrite ensure_present by exact Hhas. intros _. exact Hhas. }
  unfold ensure_visibility_field, bind, fields_indexOf, get_layer, ret. simpl.
  rewrite Hno. simpl.
  destruct (isEditable (layer w)); simpl; [discriminate|].
  destruct (commit_answers w) as [|[|] answers]; simpl; try discriminate.
  all: pose proof (indexOf_app_last (fields (layer w)) vis_field_name) as Hlast.
  all: destruct (Z.geb_spec (indexOf (fields (layer w) ++ [vis_field_name]) vis_field_name) 0)
         as [_|Hlt]; [|lia].
  all: intros _.
  all: match goal with
       | |- context [for_each ?fs ?body ?w0] =>
           pose proof (for_each_change_fields
             (indexOf (fields (layer w) ++ [vis_field_name]) vis_field_name)
             (PyInt 1) fs w0) as Hf;
           destruct (for_each fs body w0) as [u w1]
       end.
  all: simpl in *; rewrite Hf; lia.
Qed.

(** Toggling a flag leaves the fields of the layer as they are, so the
    reserved field is still there for the next [ensure_visibility_field],
    which then touches nothing, the toggled flag included. *)
Lemma toggle_keeps_fields (fid : Z) (visible : bool) (w : World) :
  fields (layer (snd (update_feature_visibility_field fid visible w))) =
  fields (layer w).
Proof.
  unfold update_feature_visibility_field, bind, fields_indexOf, get_layer, ret.
  simpl.
  destruct (indexOf (fields (layer w)) vis_field_name =? -1); [reflexivity|].
  destruct (isEditable (layer w)); reflexivity.
Qed.

Lemma ensure_after_toggle (fid : Z) (visible : bool) (w : World) :
  indexOf (fields (layer w)) vis_field_name <> -1 ->
  ensure_visibility_field (snd (update_feature_visibility_field fid visible w)) =
    (true, snd (update_feature_visibility_field fid visible w)).
Proof.
  intros Hhas. apply ensure_present. now rewrite toggle_keeps_fields.
Qed.

(** C7: on a layer that has the reserved field, [ensure_visibility_field]
    returns [True] and does nothing: no call reaches the host, so the
    fields and every stored flag stay as they are. A call that has
    returned [True] leaves such a layer, so calling again changes
    nothing. *)
Theorem ensure_visibility_field_idempotent (w : World) :
  (indexOf (fields (layer w)) vis_field_name <> -1 ->
   ensure_visibility_field w = (true, w)) /\
  (fst (ensure_visibility_field w) = true ->
   ensure_visibility_field (snd (ensure_visibility_field w)) =
     (true, snd (ensure_visibility_field w))).
Proof.
  split.
  - apply ensure_present.
  - intros Hok. apply ensure_present. now apply ensure_has_field.
Qed.

End FlagProperties.

(** ** The filter evaluator *)

Section EvaluatorProperties.
Context {PF : PyFloat}.

(** A rule of any other kind matches nothing. *)
Lemma unknown_kind_never_matches (kind : string) (v : PyValue) (text : string) :
  ~ In kind known_kinds -> rule_matches kind v text = false.
Proof.
  intros Hkind. unfold rule_matches.
  repeat match goal with
  | |- context [(kind =? ?k)%string] =>
      destruct (String.eqb_spec kind k) as [->|_];
      [exfalso; apply Hkind; simpl; tauto|]
  end.
  reflexivity.
Qed.

(** So a rule of an unknown kind with a text that is not blank, on a field
    the layer has, makes the evaluator reject every feature. *)
Lemma unknown_kind_rejects (feature : Feature) (l : Layer)
    (field_name kind text : string) :
  ~ In kind known_kinds ->
  PyStr.strip text <> EmptyString ->
  0 <= indexOf (fields l) field_name ->
  feature_matches_filters feature l [(field_name, mkFilterData kind text)] = false.
Proof.
  intros Hkind Htext Hidx. simpl.
  destruct (String.eqb_spec (PyStr.strip text) EmptyString) as [E|_]; [contradiction|].
  destruct (Z.ltb_spec (indexOf (fields l) field_name) 0) as [Hlt|_]; [lia|].
  now rewrite unknown_kind_never_matches.
Qed.

(** The evaluator on a single rule whose text is not blank, on a field
    the layer has: the comparison of that rule decides. *)
Lemma single_rule_decides (feature : Feature) (l : Layer)
    (field_name kind raw : string) :
  PyStr.strip raw <> EmptyString ->
  0 <= indexOf (fields l) field_name ->
  feature_matches_filters feature l [(field_name, mkFilterData kind raw)] =
  rule_matches kind (attribute feature (indexOf (fields l) field_name))
    (PyStr.strip raw).
Proof.
  intros Htext Hidx. simpl.
  destruct (String.eqb_spec (PyStr.strip raw) EmptyString) as [E|_]; [contradiction|].
  destruct (Z.ltb_spec (indexOf (fields l) field_name) 0) as [Hlt|_]; [lia|].
  now destruct (rule_matches kind _ _).
Qed.

(** C5, as the code has it. On a numeric rule whose text is not blank,
    for a field the layer has, the evaluator converts the feature's value
    and the stripped rule text with [float] and returns the comparison of
    the two numbers; a value that is Python's [None] counts as 0; when
    either conversion raises, the evaluator returns [False] and no error
    comes out of it (it is a total function). The null the host hands out
    is not [None]: [float] raises [TypeError] on it, so a record whose
    value is the host's null is rejected by every numeric rule and is not
    counted as 0. *)
Theorem numeric_rule (feature : Feature) (l : Layer) (field_name raw : string) :
  let text := PyStr.strip raw in
  let v := attribute feature (indexOf (fields l) field_name) in
  let greater :=
    feature_matches_filters feature l
      [(field_name, mkFilterData "Greater than" raw)] in
  let less :=
    feature_matches_filters feature l
      [(field_name, mkFilterData "Less than" raw)] in
  text <> EmptyString ->
  0 <= indexOf (fields l) field_name ->
  (forall a b : float,
     v <> PyNone -> py_float v = Some a -> float_of_str text = Some b ->
     greater = float_gtb a b /\ less = float_ltb a b) /\
  (forall b : float,
     v = PyNone -> float_of_str text = Some b ->
     greater = float_gtb (float_of_int 0) b /\
     less = float_ltb (float_of_int 0) b) /\
  (v = NULL -> greater = false /\ less = false) /\
  ((v <> PyNone /\ py_float v = None) \/ float_of_str text = None ->
   greater = false /\ less = false).
Proof.
  intros text v greater less Htext Hidx.
  assert (Hg : greater = rule_matches "Greater than" v text)
    by (apply single_rule_decides; assumption).
  assert (Hl : less = rule_matches "Less than" v text)
    by (apply single_rule_decides; assumption).
  rewrite Hg, Hl. clear Hg Hl greater less.
  unfold rule_matches. simpl.
  split; [|split; [|split]].
  - intros a b Hnn Ha Hb. rewrite Hb.
    destruct v; try contradiction; simpl in Ha |- *; try discriminate;
      try (injection Ha as <-); try rewrite Ha; now split.
  - intros b Hnone Hb. rewrite Hnone, Hb. now split.
  - intros Hnull. rewrite Hnull. now split.
  - intros [[Hnn Hv]|Ht].
    + destruct v; try contradiction; simpl in Hv |- *; try discriminate;
        try rewrite Hv; now split.
    + rewrite Ht.
      split; now destruct (match v with PyNone => _ | _ => _ end).
Qed.

Lemma filters_loop_true (feature : Feature) (l : Layer) (filters : Filters) :
  fst (filters_loop feature l filters) = true <->
  Forall (fun item => rule_passes feature l item = true) filters.
Proof.
  induction filters as [|item rest IH]; simpl.
  - split; [constructor | reflexivity].
  - destruct (rule_passes feature l item) eqn:E.
    + destruct (filters_loop feature l rest) as [r n]. simpl in *.
      rewrite IH. split.
      * intros H. now constructor.
      * intros H. now inversion H.
    + simpl. split; [discriminate|].
      intros H. inversion H; subst. congruence.
Qed.

Lemma filters_loop_false (feature : Feature) (l : Layer) (filters : Filters) :
  fst (filters_loop feature l filters) = false ->
  exists pre item post,
    filters = (pre ++ item :: post)%list /\
    Forall (fun it => rule_passes feature l it = true) pre /\
    rule_passes feature l item = false /\
    snd (filters_loop feature l filters) = S (List.length pre).
Proof.
  induction filters as [|item rest IH]; simpl; [discriminate|].
  destruct (rule_passes feature l item) eqn:E.
  - destruct (filters_loop feature l rest) as [r n]. simpl in *.
    intros Hr. destruct (IH Hr) as (pre & it & post & -> & Hpre & Hit & Hn).
    exists (item :: pre), it, post. repeat split; auto.
  - intros _. exists [], item, rest. repeat split; auto.
Qed.

(** C6: the evaluator returns [True] for an empty rule set; for any rule
    set it returns [True] exactly when every rule passes; and when it
    returns [False] it has stopped at the first rule that does not pass,
    having looked at no rule after it. *)
Theorem feature_matches_filters_all (feature : Feature) (l : Layer) :
  feature_matches_filters feature l [] = true /\
  (forall filters : Filters,
     feature_matches_filters feature l filters = true <->
     Forall (fun item => rule_passes feature l item = true) filters) /\
  (forall filters : Filters,
     feature_matches_filters feature l filters = false ->
     exists pre item post,
       filters = (pre ++ item :: post)%list /\
       Forall (fun it => rule_passes feature l it = true) pre /\
       rule_passes feature l item = false /\
       snd (filters_loop feature l filters) = S (List.length pre)).
Proof.
  split; [reflexivity|]. split.
  - intros [|item rest].
    + split; [constructor | reflexivity].
    + apply (filters_loop_true feature l (item :: rest)).
  - intros [|item rest]; [discriminate|].
    apply (filters_loop_false feature l (item :: rest)).
Qed.

(** The evaluator as one conjunction over the rules. *)
Lemma feature_matches_filters_forallb (feature : Feature) (l : Layer)
    (filters : Filters) :
  feature_matches_filters feature l filters =
  forallb (rule_passes feature l) filters.
Proof.
  destruct filters as [|item rest]; [reflexivity|].
  unfold feature_matches_filters.
  generalize (item :: rest). intros fs.
  induction fs as [|it fs' IH]; simpl; [reflexivity|].
  destruct (rule_passes feature l it); simpl; [|reflexivity].
  destruct (filters_loop feature l fs'). simpl in *. exact IH.
Qed.

(** ** The population pass *)

Lemma populate_loop_unbounded (l : Layer) (flt : Filters) (idx : Z)
    (fs : list Feature) :
  forall (seen : Dict.dict Z bool) (acc : list Row),
    snd (populate_loop l flt idx None fs seen acc) =
    (acc ++ map (row_of idx)
              (filter (fun f => feature_matches_filters f l flt) fs))%list.
Proof.
  induction fs as [|f rest IH]; intros seen acc; simpl.
  - now rewrite app_nil_r.
  - destruct (feature_matches_filters f l flt); simpl; [|apply IH].
    rewrite IH, <- app_assoc. reflexivity.
Qed.

Lemma populate_loop_bounded (l : Layer) (flt : Filters) (idx n : Z)
    (fs : list Feature) :
  0 < n ->
  forall (seen : Dict.dict Z bool) (acc : list Row),
    Z.of_nat (List.length acc) < n ->
    snd (populate_loop l flt idx (Some n) fs seen acc) =
    (acc ++ firstn (Z.to_nat n - List.length acc)
              (map (row_of idx)
                 (filter (fun f => feature_matches_filters f l flt) fs)))%list.
Proof.
  intros Hn.
  induction fs as [|f rest IH]; intros seen acc Hacc; simpl.
  - now rewrite firstn_nil, app_nil_r.
  - destruct (feature_matches_filters f l flt); simpl; [|now apply IH].
    destruct (Z.eqb_spec n 0) as [E|_]; [lia|]. simpl.
    rewrite length_app. simpl.
    destruct (Z.to_nat n - List.length acc)%nat as [|k] eqn:Ek; [lia|].
    simpl.
    destruct (Z.geb_spec (Z.of_nat (List.length acc + 1)) n) as [Hge|Hlt]; simpl.
    + replace k with 0%nat by lia. reflexivity.
    + rewrite IH by (rewrite length_app; simpl; lia).
      rewrite <- app_assoc, length_app. simpl.
      replace (Z.to_nat n - (List.length acc + 1))%nat with k by lia.
      reflexivity.
Qed.

(** C8: the list [on_layer_selected] builds holds, in the layer's order,
    the features that pass the active rules: all of them when the limit
    is 0 (or below), the first [n] of them when the limit is [n > 0]. The
    limit counts rows that passed the rules, so it cuts after filtering. *)
Theorem populate_limit (st : Settings) (l : Layer) :
  let selected :=
    match Dict.get String.eqb (layer_id l) (layer_attributes st) with
    | Some a => a | None => [] end in
  let rules :=
    match Dict.get String.eqb (layer_id l) (layer_filters st) with
    | Some f => f | None => [] end in
  let active := active_filters_of rules selected in
  let passing :=
    map (row_of (indexOf (fields l) vis_field_name))
      (filter (fun f => feature_matches_filters f l active) (getFeatures l)) in
  snd (populate st l) =
    (if feature_limit st >? 0
     then firstn (Z.to_nat (feature_limit st)) passing
     else passing) /\
  (0 < feature_limit st ->
   Z.of_nat (List.length (snd (populate st l))) <= feature_limit st).
Proof.
  intros selected rules active passing.
  assert (Heq : snd (populate st l) =
    (if feature_limit st >? 0
     then firstn (Z.to_nat (feature_limit st)) passing
     else passing)).
  { unfold populate. fold selected rules active.
    destruct (Z.gtb_spec (feature_limit st) 0) as [Hpos|Hle].
    - rewrite populate_loop_bounded by (simpl; lia).
      simpl. now rewrite Nat.sub_0_r.
    - now rewrite populate_loop_unbounded. }
  split; [exact Heq|].
  intros Hpos. rewrite Heq.
  destruct (Z.gtb_spec (feature_limit st) 0) as [_|Hle]; [|lia].
  pose proof (firstn_le_length (Z.to_nat (feature_limit st)) passing). lia.
Qed.

End EvaluatorProperties.

(** ** The text format of the filter rules *)

Section Serialization.

Lemma replace_char (a : ascii) (tok s : string) :
  PyStr.replace s (String a EmptyString) tok = subst_char a tok s.
Proof.
  unfold PyStr.replace.
  induction s as [|c rest IH]; [reflexivity|].
  cbn [PyStr.replace_from PyStr.startswith subst_char String.length Nat.pred].
  rewrite andb_true_r, IH. reflexivity.
Qed.

Lemma escape_escape_chars (s : string) : escape s = escape_chars s.
Proof.
  unfold escape. rewrite !replace_char.
  induction s as [|c rest IH]; [reflexivity|].
  cbn [subst_char escape_chars].
  destruct (Ascii.eqb_spec ":" c) as [<-|Hc].
  - cbn. now rewrite IH.
  - cbn [subst_char]. rewrite IH. reflexivity.
Qed.

Lemma startswith_escape_chars (w : string) :
  plain_word w = true ->
  forall (s p : string),
    PyStr.startswith (escape_chars s) (w ++ p) = true -> PyStr.startswith s w = true.
Proof.
  induction w as [|a w' IH]; intros Hw s p H; [reflexivity|].
  cbn [plain_word] in Hw.
  apply andb_true_iff in Hw as [Hw Hw'].
  apply andb_true_iff in Hw as [Hw Hu].
  apply andb_true_iff in Hw as [Hc Hp].
  destruct s as [|c rest]; [discriminate H|].
  cbn [escape_chars] in H. cbn [PyStr.startswith].
  destruct (Ascii.eqb_spec ":" c) as [<-|Hnc].
  { cbn in H. destruct (Ascii.eqb_spec a "_") as [->|]; [discriminate Hu|discriminate H]. }
  destruct (Ascii.eqb_spec "|" c) as [<-|Hnp].
  { cbn in H. destruct (Ascii.eqb_spec a "_") as [->|]; [discriminate Hu|discriminate H]. }
  cbn [PyStr.startswith append] in H.
  apply andb_true_iff in H as [H1 H2]. rewrite H1. simpl.
  now apply (IH Hw' rest p).
Qed.

Lemma contains_cons (c : ascii) (s w : string) :
  PyStr.contains (String c s) w = false ->
  PyStr.startswith (String c s) w = false /\ PyStr.contains s w = false.
Proof.
  cbn [PyStr.contains]. intros H. now apply orb_false_iff in H.
Qed.

Lemma contains_startswith (s w : string) :
  PyStr.contains s w = false -> PyStr.startswith s w = false.
Proof.
  destruct s; cbn [PyStr.contains]; intros H; now apply orb_false_iff in H.
Qed.

Lemma no_word_after_escape_chars (w p s : string) :
  plain_word w = true ->
  PyStr.contains s w = false ->
  PyStr.startswith (escape_chars s) (w ++ p) = false.
Proof.
  intros Hw Hs.
  destruct (PyStr.startswith (escape_chars s) (w ++ p)) eqn:E; [|reflexivity].
  apply (startswith_escape_chars w Hw) in E.
  apply contains_startswith in Hs. congruence.
Qed.

Lemma startswith_subst_pipe (w : string) :
  plain_word w = true ->
  forall (s p : string),
    PyStr.startswith (subst_char "|" "_PIPE_" s) (w ++ p) = true ->
    PyStr.startswith s w = true.
Proof.
  induction w as [|a w' IH]; intros Hw s p H; [reflexivity|].
  cbn [plain_word] in Hw.
  apply andb_true_iff in Hw as [Hw Hw'].
  apply andb_true_iff in Hw as [Hw Hu].
  destruct s as [|c rest]; [discriminate H|].
  cbn [subst_char] in H. cbn [PyStr.startswith].
  destruct (Ascii.eqb_spec "|" c) as [<-|Hnp].
  { cbn in H. destruct (Ascii.eqb_spec a "_") as [->|]; [discriminate Hu|discriminate H]. }
  cbn [PyStr.startswith append] in H.
  apply andb_true_iff in H as [H1 H2]. rewrite H1. simpl.
  now apply (IH Hw' rest p).
Qed.

Lemma no_word_after_subst_pipe (w p s : string) :
  plain_word w = true ->
  PyStr.contains s w = false ->
  PyStr.startswith (subst_char "|" "_PIPE_" s) (w ++ p) = false.
Proof.
  intros Hw Hs.
  destruct (PyStr.startswith (subst_char "|" "_PIPE_" s) (w ++ p)) eqn:E; [|reflexivity].
  apply (startswith_subst_pipe w Hw) in E.
  apply contains_startswith in Hs. congruence.
Qed.

(** The first pass of [unescape] undoes the colons. *)
Lemma unescape_colons (s : string) :
  PyStr.contains s "COLON" = false ->
  PyStr.replace (escape_chars s) "_COLON_" ":" = subst_char "|" "_PIPE_" s.
Proof.
  unfold PyStr.replace.
  induction s as [|c rest IH]; intros Hs; [reflexivity|].
  apply contains_cons in Hs as [_ Hrest].
  pose proof (no_word_after_escape_chars "COLON" "_" rest eq_refl Hrest) as Hafter.
  cbn [append] in Hafter.
  specialize (IH Hrest).
  cbn [escape_chars subst_char].
  destruct (Ascii.eqb_spec ":" c) as [<-|Hnc].
  { cbn. rewrite IH. reflexivity. }
  destruct (Ascii.eqb_spec "|" c) as [<-|Hnp].
  { cbn. cbn in Hafter. rewrite Hafter, IH. reflexivity. }
  cbn [PyStr.replace_from PyStr.startswith].
  destruct (Ascii.eqb_spec "_" c) as [<-|Hnu].
  - cbn. cbn in Hafter. rewrite Hafter, IH. reflexivity.
  - cbn. rewrite IH. reflexivity.
Qed.

(** The second pass undoes the pipes. *)
Lemma unescape_pipes (s : string) :
  PyStr.contains s "PIPE" = false ->
  PyStr.replace (subst_char "|" "_PIPE_" s) "_PIPE_" "|" = s.
Proof.
  unfold PyStr.replace.
  induction s as [|c rest IH]; intros Hs; [reflexivity|].
  apply contains_cons in Hs as [_ Hrest].
  pose proof (no_word_after_subst_pipe "PIPE" "_" rest eq_refl Hrest) as Hafter.
  cbn [append] in Hafter.
  specialize (IH Hrest).
  cbn [subst_char].
  destruct (Ascii.eqb_spec "|" c) as [<-|Hnp].
  { cbn. rewrite IH. reflexivity. }
  cbn [PyStr.replace_from PyStr.startswith].
  destruct (Ascii.eqb_spec "_" c) as [<-|Hnu].
  - cbn. cbn in Hafter. rewrite Hafter, IH. reflexivity.
  - cbn. rewrite IH. reflexivity.
Qed.

Lemma unescape_escape (s : string) :
  word_free s = true -> unescape (escape s) = s.
Proof.
  unfold word_free. intros H.
  apply andb_true_iff in H as [Hc Hp].
  apply negb_true_iff in Hc, Hp.
  unfold unescape. rewrite escape_escape_chars, unescape_colons by exact Hc.
  now apply unescape_pipes.
Qed.

Lemma has_char_app (a : ascii) (s t : string) :
  has_char a (s ++ t) = has_char a s || has_char a t.
Proof.
  induction s as [|c rest IH]; simpl; [reflexivity|].
  now rewrite IH, orb_assoc.
Qed.

Lemma has_char_escape_chars (s : string) :
  has_char ":" (escape_chars s) = false /\ has_char "|" (escape_chars s) = false.
Proof.
  induction s as [|c rest [IHc IHp]]; [now split|].
  cbn [escape_chars].
  destruct (Ascii.eqb_spec ":" c) as [<-|Hnc].
  { cbn. now rewrite IHc, IHp. }
  destruct (Ascii.eqb_spec "|" c) as [<-|Hnp].
  { cbn. now rewrite IHc, IHp. }
  cbn [has_char]. rewrite IHc, IHp.
  destruct (Ascii.eqb_spec ":" c); [contradiction|].
  destruct (Ascii.eqb_spec "|" c); [contradiction|].
  now split.
Qed.

Lemma split_no_sep (a : ascii) (m : option nat) (s : string) :
  has_char a s = false -> PyStr.split a m s = [s].
Proof.
  induction s as [|c rest IH]; intros H; [reflexivity|].
  cbn [has_char] in H. apply orb_false_iff in H as [Hc Hrest].
  cbn [PyStr.split]. rewrite Ascii.eqb_sym, Hc, (IH Hrest). reflexivity.
Qed.

Lemma split_app_sep (a : ascii) (m : option nat) (s t : string) :
  has_char a s = false ->
  m <> Some 0%nat ->
  PyStr.split a m (s ++ String a t) =
  s :: PyStr.split a (match m with Some n => Some (Nat.pred n) | None => None end) t.
Proof.
  intros Hs Hm.
  induction s as [|c rest IH].
  - cbn [append PyStr.split]. rewrite Ascii.eqb_refl.
    destruct m as [[|n]|]; [contradiction| |]; reflexivity.
  - cbn [has_char] in Hs. apply orb_false_iff in Hs as [Hc Hrest].
    cbn [append PyStr.split]. rewrite Ascii.eqb_sym, Hc, (IH Hrest). reflexivity.
Qed.

Lemma split_exhausted (a : ascii) (s : string) :
  PyStr.split a (Some 0%nat) s = [s].
Proof.
  induction s as [|c rest IH]; [reflexivity|].
  cbn [PyStr.split]. rewrite andb_false_r, IH. reflexivity.
Qed.

Lemma split_join (a : ascii) (parts : list string) :
  parts <> [] ->
  Forall (fun p => has_char a p = false) parts ->
  PyStr.split a None (PyStr.join (String a EmptyString) parts) = parts.
Proof.
  unfold PyStr.join.
  induction parts as [|p rest IH]; intros Hne Hall; [contradiction|].
  inversion Hall as [|? ? Hp Hrest]; subst.
  destruct rest as [|q rest'].
  - simpl. now apply split_no_sep.
  - change (concat (String a EmptyString) (p :: q :: rest'))
      with (p ++ String a (concat (String a EmptyString) (q :: rest'))).
    rewrite split_app_sep by (auto; discriminate).
    rewrite IH by (auto; discriminate). reflexivity.
Qed.

Lemma contains_app_char (a : ascii) (s t : string) :
  PyStr.contains (s ++ String a t) (String a EmptyString) = true.
Proof.
  induction s as [|c rest IH].
  - cbn. now rewrite Ascii.eqb_refl.
  - cbn [append PyStr.contains]. rewrite IH. apply orb_true_r.
Qed.

Lemma append_sep_not_empty (a : ascii) (s t : string) :
  (s ++ String a t =? EmptyString)%string = false.
Proof. now destruct s. Qed.

Lemma rule_text_no_pipe (item : string * FilterData) :
  has_char "|" (rule_text item) = false.
Proof.
  unfold rule_text. rewrite !escape_escape_chars, !has_char_app.
  cbn [has_char]. rewrite !(proj2 (has_char_escape_chars _)). reflexivity.
Qed.

Lemma load_filter_part_rule_text (acc : Filters) (item : string * FilterData) :
  load_filter_part acc (rule_text item) =
  Dict.set String.eqb (unescape (escape (fst item)))
    (mkFilterData (unescape (escape (filter_type (snd item))))
                  (unescape (escape (filter_value (snd item))))) acc.
Proof.
  unfold load_filter_part, rule_text. cbn [append].
  rewrite contains_app_char.
  rewrite split_app_sep
    by (try discriminate; rewrite escape_escape_chars; apply has_char_escape_chars).
  cbn [Nat.pred].
  rewrite split_app_sep
    by (try discriminate; rewrite escape_escape_chars; apply has_char_escape_chars).
  cbn [Nat.pred]. rewrite split_exhausted. reflexivity.
Qed.

Lemma load_filter_part_word_free (acc : Filters) (item : string * FilterData) :
  rule_word_free item = true ->
  load_filter_part acc (rule_text item) =
  Dict.set String.eqb (fst item) (snd item) acc.
Proof.
  unfold rule_word_free. intros H.
  apply andb_true_iff in H as [H Hv]. apply andb_true_iff in H as [Hk Ht].
  rewrite load_filter_part_rule_text, !unescape_escape by assumption.
  now destruct item as [k [t v]].
Qed.

Lemma dict_set_fresh {V : Type} (k : string) (v : V) (d : Dict.dict string V) :
  ~ In k (Dict.keys d) -> Dict.set String.eqb k v d = (d ++ [(k, v)])%list.
Proof.
  induction d as [|[k' v'] rest IH]; intros Hk; [reflexivity|].
  simpl in *. destruct (String.eqb_spec k k') as [->|_]; [tauto|].
  rewrite IH by tauto. reflexivity.
Qed.

Lemma load_parts_fold (m : Filters) :
  forallb rule_word_free m = true ->
  forall acc : Filters,
    NoDup (Dict.keys acc ++ Dict.keys m) ->
    fold_left load_filter_part (map rule_text m) acc = (acc ++ m)%list.
Proof.
  induction m as [|[k d] rest IH]; intros Hfree acc Hnd; simpl.
  - now rewrite app_nil_r.
  - simpl in Hfree. apply andb_true_iff in Hfree as [Hitem Hrest].
    rewrite load_filter_part_word_free by exact Hitem. simpl.
    simpl in Hnd.
    rewrite dict_set_fresh.
    + rewrite IH; [now rewrite <- app_assoc | exact Hrest |].
      unfold Dict.keys in *. rewrite map_app, <- app_assoc. exact Hnd.
    + apply NoDup_remove_2 in Hnd. intros Hin. apply Hnd.
      apply in_or_app. now left.
Qed.

(** C4, as the code has it: a rule set with distinct field names whose
    field names, kinds and values hold neither the word COLON nor the
    word PIPE (colons and pipes are welcome) is reproduced exactly by
    saving it and loading it again. *)
Theorem filters_roundtrip (m : Filters) :
  NoDup (Dict.keys m) ->
  forallb rule_word_free m = true ->
  reload_filters m = m.
Proof.
  intros Hnd Hfree.
  unfold reload_filters, save_filters.
  unfold filters_parts.
  destruct m as [|item rest]; [reflexivity|].
  cbn [map settings_value].
  unfold load_filters.
  assert (Hne : (PyStr.join "|" (rule_text item :: map rule_text rest) =? EmptyString)%string = false).
  { unfold PyStr.join. cbn [concat].
    destruct (map rule_text rest);
      unfold rule_text; rewrite <- ?append_assoc; cbn [append].
    - apply append_sep_not_empty.
    - apply append_sep_not_empty. }
  rewrite Hne.
  rewrite (split_join "|" (rule_text item :: map rule_text rest)).
  - change (rule_text item :: map rule_text rest) with (map rule_text (item :: rest)).
    rewrite (load_parts_fold (item :: rest) Hfree [] Hnd). reflexivity.
  - discriminate.
  - change (Forall (fun p => has_char "|" p = false) (map rule_text (item :: rest))).
    apply Forall_forall. intros p Hp.
    apply in_map_iff in Hp as [it [<- _]]. apply rule_text_no_pipe.
Qed.

(** What loading makes of the saved text of any rule set: the rules are
    entered one after the other under their unescaped escaped names. *)
Lemma reload_filters_fold (m : Filters) :
  fold_left load_filter_part (filters_parts m) [] =
  fold_left
    (fun acc item =>
       Dict.set String.eqb (unescape (escape (fst item)))
         (mkFilterData (unescape (escape (filter_type (snd item))))
                       (unescape (escape (filter_value (snd item))))) acc)
    m [].
Proof.
  unfold filters_parts. generalize (@nil (string * FilterData)).
  induction m as [|item rest IH]; intros acc; simpl; [reflexivity|].
  now rewrite load_filter_part_rule_text, IH.
Qed.

(** C10: the escaping is not injective. Two different rule sets, one with
    the text _COLON_ in a field name and one with a colon in its place,
    are saved as the same text; loading gives the second, so the first is
    not reproduced. The same holds with _PIPE_ in a value. *)
Theorem escaping_not_injective :
  exists m m' : Filters,
    m <> m' /\
    NoDup (Dict.keys m) /\
    existsb (fun item => PyStr.contains (fst item) "_COLON_") m = true /\
    save_filters m = save_filters m' /\
    reload_filters m = m' /\
    reload_filters m <> m /\
    reload_filters [("a", mkFilterData "Equals" "x_PIPE_y")] =
      [("a", mkFilterData "Equals" "x|y")].
Proof.
  exists [("a_COLON_b", mkFilterData "Contains" "x")],
         [("a:b", mkFilterData "Contains" "x")].
  repeat split; try reflexivity; try discriminate.
  constructor; [intros [] | constructor].
Qed.

End Serialization.

(** ** The claims on concrete layers *)

(** C2 at a concrete input: a rule of the kind "No filter" (not one of the
    six kinds) with the text "x" on the field "name" makes the evaluator
    return [False] for a feature named Jack, where the empty rule set
    gives [True]. *)
Theorem no_filter_kind_rejects_feature (PF : PyFloat) :
  let l := mkLayer "L1" ["name"] [] false EmptyString in
  let feature := mkFeature 1 [PyString "Jack"] in
  ~ In "No filter" known_kinds /\
  feature_matches_filters feature l [("name", mkFilterData "No filter" "x")] = false /\
  feature_matches_filters feature l [] = true.
Proof.
  cbv zeta. split; [|split; reflexivity].
  simpl. intros H. repeat destruct H as [H|H]; try discriminate H. exact H.
Qed.


(** C9 on the layer with the reserved field: feature 8, whose flag is 2,
    is checked in the panel and left out by the subset expression, as is
    feature 7 with the host's null; the record with the flag 0 and the
    record with [None] read as hidden. *)
Lemma nonzero_flag_reads_visible_witness :
  (is_visible 1 Examples.odd_flag_feature = true /\
   subset_accepts
     (layer (snd (update_layer_visibility (mkWorld Examples.flagged_layer [] []))))
     Examples.odd_flag_feature = false) /\
  is_visible 1 Scenes.hidden_feature = false /\
  is_visible 1 Scenes.none_flag_feature = false /\
  (is_visible 1 Examples.null_flag_feature = true /\
   subset_accepts
     (layer (snd (update_layer_visibility (mkWorld Examples.flagged_layer [] []))))
     Examples.null_flag_feature = false).
Proof.
  assert (H0 : 0 <= indexOf (fields Examples.flagged_layer) vis_field_name)
    by (vm_compute; discriminate).
  split; [|split; [|split]].
  - destruct (nonzero_flag_reads_visible (mkWorld Examples.flagged_layer [] [])
                Examples.odd_flag_feature H0) as [_ [Hint _]].
    destruct (Hint 2 eq_refl) as [_ [_ Hodd]].
    apply Hodd; lia.
  - destruct (nonzero_flag_reads_visible (mkWorld Examples.flagged_layer [] [])
                Scenes.hidden_feature H0) as [_ [Hint _]].
    exact (proj1 (Hint 0 eq_refl)).
  - destruct (nonzero_flag_reads_visible (mkWorld Examples.flagged_layer [] [])
                Scenes.none_flag_feature H0) as [_ [_ [Hnone _]]].
    exact (proj1 (Hnone eq_refl)).
  - destruct (nonzero_flag_reads_visible (mkWorld Examples.flagged_layer [] [])
                Examples.null_flag_feature H0) as [_ [_ [_ Hnull]]].
    exact (Hnull eq_refl).
Defined.

(** C3 fails as stated: on a layer without the reserved field the only
    call made is the one that clears the subset expression; no redraw is
    requested. *)
Lemma no_redraw_without_field :
  let w := mkWorld Examples.plain_layer [] [] in
  indexOf (fields (layer w)) vis_field_name = -1 /\
  calls (snd (update_layer_visibility w)) = [SetSubsetString EmptyString] /\
  existsb is_redraw (calls (snd (update_layer_visibility w))) = false.
Proof. repeat split; reflexivity. Qed.

(** C7 on the layer that has the field, and on the layer that gets it by
    the first call. *)
Lemma ensure_visibility_field_idempotent_witness :
  ensure_visibility_field (mkWorld Examples.flagged_layer [] []) =
    (true, mkWorld Examples.flagged_layer [] []) /\
  (let w1 := snd (ensure_visibility_field (mkWorld Examples.plain_layer [] [])) in
   ensure_visibility_field w1 = (true, w1)).
Proof.
  split.
  - apply (proj1 (ensure_visibility_field_idempotent
                    (mkWorld Examples.flagged_layer [] []))).
    vm_compute. discriminate.
  - apply (proj2 (ensure_visibility_field_idempotent
                    (mkWorld Examples.plain_layer [] []))).
    reflexivity.
Defined.

(** C5 on the field pop. The rule pop > 100: 250 matches, abc does not
    parse and the feature is rejected. The rule pop < 5: [None] counts as
    0 and matches, the host's null is rejected. *)
Lemma numeric_rule_witness :
  feature_matches_filters (mkFeature 1 [PyString "Jack"; PyString "250"])
    Examples.plain_layer [("pop", mkFilterData "Greater than" "100")] = true /\
  feature_matches_filters (mkFeature 2 [PyString "Bob"; PyString "abc"])
    Examples.plain_layer [("pop", mkFilterData "Greater than" "100")] = false /\
  feature_matches_filters (mkFeature 3 [PyString "Jacky"; PyNone])
    Examples.plain_layer [("pop", mkFilterData "Less than" " 5 ")] = true /\
  feature_matches_filters (mkFeature 4 [PyString "Jill"; NULL])
    Examples.plain_layer [("pop", mkFilterData "Less than" " 5 ")] = false.
Proof.
  assert (Hidx : 0 <= indexOf (fields Examples.plain_layer) "pop")
    by (vm_compute; discriminate).
  assert (H100 : PyStr.strip "100" <> EmptyString) by (vm_compute; discriminate).
  assert (H5 : PyStr.strip " 5 " <> EmptyString) by (vm_compute; discriminate).
  split; [|split; [|split]].
  - refine (proj1 (proj1 (numeric_rule (PF := WholeFloat)
              (mkFeature 1 [PyString "Jack"; PyString "250"])
              Examples.plain_layer "pop" "100" H100 Hidx)
            250 100 _ eq_refl eq_refl)).
    vm_compute; discriminate.
  - refine (proj1 (proj2 (proj2 (proj2 (numeric_rule (PF := WholeFloat)
              (mkFeature 2 [PyString "Bob"; PyString "abc"])
              Examples.plain_layer "pop" "100" H100 Hidx)))
            (or_introl (conj _ eq_refl)))).
    vm_compute; discriminate.
  - exact (proj2 (proj1 (proj2 (numeric_rule (PF := WholeFloat)
              (mkFeature 3 [PyString "Jacky"; PyNone])
              Examples.plain_layer "pop" " 5 " H5 Hidx))
            5 eq_refl eq_refl)).
  - exact (proj2 (proj1 (proj2 (proj2 (numeric_rule (PF := WholeFloat)
              (mkFeature 4 [PyString "Jill"; NULL])
              Examples.plain_layer "pop" " 5 " H5 Hidx)))
            eq_refl)).
Defined.

(** C6 on feature 1: two rules that both match, and three rules of which
    the second fails, where the loop stops. *)
Lemma feature_matches_filters_all_witness :
  feature_matches_filters (mkFeature 1 [PyString "Jack"; PyString "250"])
    Examples.plain_layer
    [("name", mkFilterData "Contains" "ac");
     ("pop", mkFilterData "Greater than" "100")] = true /\
  exists pre item post,
    [("name", mkFilterData "Contains" "ac");
     ("pop", mkFilterData "Less than" "100");
     ("name", mkFilterData "Equals" "bob")] = (pre ++ item :: post)%list /\
    Forall (fun it => rule_passes (mkFeature 1 [PyString "Jack"; PyString "250"])
                        Examples.plain_layer it = true) pre /\
    rule_passes (mkFeature 1 [PyString "Jack"; PyString "250"])
      Examples.plain_layer item = false /\
    snd (filters_loop (mkFeature 1 [PyString "Jack"; PyString "250"])
           Examples.plain_layer
           [("name", mkFilterData "Contains" "ac");
            ("pop", mkFilterData "Less than" "100");
            ("name", mkFilterData "Equals" "bob")]) = S (List.length pre).
Proof.
  split.
  - apply (proj1 (proj2 (feature_matches_filters_all
                           (mkFeature 1 [PyString "Jack"; PyString "250"])
                           Examples.plain_layer))).
    repeat constructor.
  - apply (proj2 (proj2 (feature_matches_filters_all
                           (mkFeature 1 [PyString "Jack"; PyString "250"])
                           Examples.plain_layer))).
    reflexivity.
Defined.

(** C8 with the limit 1: two features pass the rule on the name, one row
    is listed. *)
Lemma populate_limit_witness :
  0 < 1 /\
  Z.of_nat (List.length (snd (populate (Examples.plain_settings 1)
                                 Examples.plain_layer))) <= 1.
Proof.
  split; [lia|].
  apply (proj2 (populate_limit (Examples.plain_settings 1) Examples.plain_layer)).
  simpl. lia.
Defined.

(** C4 fails as stated: a field name with a pipe, the word COLON and a
    colon is not reproduced, though it holds neither escape sequence. *)
Lemma roundtrip_breaks_on_word :
  let m := [("|COLON:", mkFilterData "Contains" "x")] in
  NoDup (Dict.keys m) /\
  has_char ":" "|COLON:" = true /\ has_char "|" "|COLON:" = true /\
  PyStr.contains "|COLON:" "_COLON_" = false /\
  PyStr.contains "|COLON:" "_PIPE_" = false /\
  reload_filters m = [("_PIPE:COLON_", mkFilterData "Contains" "x")] /\
  reload_filters m <> m.
Proof.
  cbv zeta. repeat split; try reflexivity; try discriminate.
  constructor; [intros [] | constructor].
Qed.

(** C4 on two rules with colons and pipes in a name and in the values. *)
Lemma filters_roundtrip_witness :
  let m := [("a:b|c", mkFilterData "Contains" "x:y");
            ("z", mkFilterData "Equals" "|")] in
  reload_filters m = m.
Proof.
  cbv zeta. apply filters_roundtrip.
  - constructor; [simpl; intros [H|[]]; discriminate H|].
    constructor; [intros [] | constructor].
  - reflexivity.
Defined.

(** * Further properties of the code *)

(** ** Dictionaries *)

Section DictFacts.
Context {K V : Type} (eqb : K -> K -> bool).
Hypothesis eqb_eq : forall a b : K, eqb a b = true <-> a = b.

Lemma dict_eqb_refl (k : K) : eqb k k = true.
Proof. now apply eqb_eq. Qed.

Lemma dict_eqb_neq (a b : K) : a <> b -> eqb a b = false.
Proof.
  intros Hne. destruct (eqb a b) eqn:E; [|reflexivity].
  apply eqb_eq in E. contradiction.
Qed.

Lemma dict_get_set_same (k : K) (v : V) (d : Dict.dict K V) :
  Dict.get eqb k (Dict.set eqb k v d) = Some v.
Proof.
  induction d as [|[k' v'] rest IH]; simpl.
  - now rewrite dict_eqb_refl.
  - destruct (eqb k k') eqn:E; simpl; rewrite E; [reflexivity|exact IH].
Qed.

Lemma dict_get_set_other (k k' : K) (v : V) (d : Dict.dict K V) :
  k <> k' -> Dict.get eqb k (Dict.set eqb k' v d) = Dict.get eqb k d.
Proof.
  intros Hne.
  induction d as [|[k0 v0] rest IH]; simpl.
  - now rewrite dict_eqb_neq.
  - destruct (eqb k' k0) eqn:E; simpl.
    + apply eqb_eq in E. subst k0. now rewrite dict_eqb_neq.
    + now rewrite IH.
Qed.

Lemma dict_get_none (k : K) (d : Dict.dict K V) :
  Dict.get eqb k d = None <-> ~ In k (Dict.keys d).
Proof.
  induction d as [|[k0 v0] rest IH]; simpl; [tauto|].
  destruct (eqb k k0) eqn:E.
  - apply eqb_eq in E. subst. split; [discriminate|tauto].
  - rewrite IH. split.
    + intros H [H0|H0]; [|tauto]. subst. rewrite dict_eqb_refl in E. discriminate.
    + tauto.
Qed.

Lemma dict_keys_set (k : K) (v : V) (d : Dict.dict K V) :
  Dict.keys (Dict.set eqb k v d) =
  if Dict.mem eqb k d then Dict.keys d else (Dict.keys d ++ [k])%list.
Proof.
  unfold Dict.mem.
  induction d as [|[k0 v0] rest IH]; simpl; [reflexivity|].
  destruct (eqb k k0) eqn:E; simpl; [reflexivity|].
  rewrite IH. now destruct (Dict.get eqb k rest).
Qed.

End DictFacts.

(** ** Writing the flag *)

Section FurtherProperties.
Context {PF : PyFloat}.

Lemma nth_set_nth (n : nat) (v : PyValue) (vs : list PyValue) :
  nth n (set_nth n v vs) PyNone = v.
Proof.
  revert vs. induction n as [|k IH]; intros [|x rest]; simpl; auto.
Qed.

Lemma nth_set_nth_other (n m : nat) (v : PyValue) (vs : list PyValue) :
  n <> m -> nth m (set_nth n v vs) PyNone = nth m vs PyNone.
Proof.
  revert m vs. induction n as [|k IH]; intros m vs Hnm.
  - destruct m as [|m]; [congruence|]. destruct vs; simpl; [now destruct m|reflexivity].
  - destruct m as [|m]; destruct vs as [|x rest]; simpl; try reflexivity.
    + rewrite IH by congruence. now destruct m.
    + apply IH. congruence.
Qed.

Lemma set_nth_twice (n : nat) (v : PyValue) (vs : list PyValue) :
  set_nth n v (set_nth n v vs) = set_nth n v vs.
Proof.
  revert vs. induction n as [|k IH]; intros [|x rest]; simpl; auto;
    now rewrite IH.
Qed.

Lemma toggle_world (fid : Z) (visible : bool) (w : World) :
  indexOf (fields (layer w)) vis_field_name <> -1 ->
  isEditable (layer w) = false ->
  let idx := indexOf (fields (layer w)) vis_field_name in
  let ok := match commit_answers w with [] => true | b :: _ => b end in
  let v := PyInt (if visible then 1 else 0) in
  snd (update_feature_visibility_field fid visible w) =
    mkWorld
      (mkLayer (layer_id (layer w)) (fields (layer w))
         (map (with_value fid (Z.to_nat idx) v) (features (layer w)))
         (if ok then false else true) (subsetString (layer w)))
      (tl (commit_answers w))
      (calls w ++ [StartEditing; ChangeAttributeValue fid idx v; CommitChanges ok])%list.
Proof.
  intros Hhas Hed. cbv zeta.
  unfold update_feature_visibility_field, bind, fields_indexOf, get_layer, ret.
  simpl.
  destruct (Z.eqb_spec (indexOf (fields (layer w)) vis_field_name) (-1));
    [contradiction|].
  rewrite Hed. simpl. rewrite <- !app_assoc. simpl.
  reflexivity.
Qed.

Lemma toggle_reads_back (fid : Z) (visible : bool) (w : World) :
  indexOf (fields (layer w)) vis_field_name <> -1 ->
  isEditable (layer w) = false ->
  forall f',
    In f' (features (layer (snd (update_feature_visibility_field fid visible w)))) ->
    id f' = fid ->
    is_visible (indexOf (fields (layer w)) vis_field_name) f' = visible.
Proof.
  intros Hhas Hed f' Hin Hid.
  pose proof (indexOf_range (fields (layer w)) vis_field_name) as Hrange.
  rewrite toggle_world in Hin by assumption. simpl in Hin.
  apply in_map_iff in Hin as [f [<- Hf]].
  unfold with_value in *. destruct (Z.eqb_spec (id f) fid) as [E|E]; [|contradiction].
  unfold is_visible.
  destruct (Z.geb_spec (indexOf (fields (layer w)) vis_field_name) 0); [|lia].
  unfold attribute. simpl. rewrite nth_set_nth.
  now destruct visible.
Qed.

(** X1: a toggle on a layer that has the reserved field and is not in
    edit mode writes the flag of that feature: the feature then reads as
    the toggle says, its other attributes and every other feature are as
    before, and no record is added or lost. *)
Theorem toggle_sets_flag (fid : Z) (visible : bool) (w : World) :
  let idx := indexOf (fields (layer w)) vis_field_name in
  let w' := snd (update_feature_visibility_field fid visible w) in
  idx <> -1 ->
  isEditable (layer w) = false ->
  fields (layer w') = fields (layer w) /\
  map id (features (layer w')) = map id (features (layer w)) /\
  (forall f', In f' (features (layer w')) -> id f' = fid ->
     is_visible idx f' = visible) /\
  (forall f, id f <> fid ->
     (In f (features (layer w')) <-> In f (features (layer w)))) /\
  (forall f, In f (features (layer w)) -> id f = fid ->
     exists f', In f' (features (layer w')) /\ id f' = fid /\
       forall j, 0 <= j -> j <> idx -> attribute f' j = attribute f j).
Proof.
  intros idx w' Hhas Hed.
  pose proof (indexOf_range (fields (layer w)) vis_field_name) as Hrange.
  fold idx in Hrange.
  assert (Hidx : 0 <= idx) by (destruct Hrange; [contradiction|assumption]).
  unfold w'. rewrite toggle_world by assumption. fold idx. simpl.
  split; [reflexivity|]. split.
  { rewrite map_map. apply map_ext. intros f. unfold with_value.
    now destruct (id f =? fid). }
  split; [|split].
  - intros f' Hin Hid.
    apply (toggle_reads_back fid visible w Hhas Hed f'); [|exact Hid].
    rewrite toggle_world by assumption. exact Hin.
  - intros f Hid. split.
    + intros Hin. apply in_map_iff in Hin as [g [Hg Hin]].
      unfold with_value in Hg. destruct (Z.eqb_spec (id g) fid) as [E|E].
      * subst f. simpl in Hid. contradiction.
      * now subst g.
    + intros Hin. apply in_map_iff. exists f. split; [|exact Hin].
      unfold with_value. destruct (Z.eqb_spec (id f) fid); [contradiction|reflexivity].
  - intros f Hin Hid.
    exists (with_value fid (Z.to_nat idx) (PyInt (if visible then 1 else 0)) f).
    split; [now apply in_map|].
    unfold with_value. destruct (Z.eqb_spec (id f) fid); [|contradiction].
    split; [exact Hid|]. intros j Hj Hne. unfold attribute. simpl.
    apply nth_set_nth_other. lia.
Qed.

Lemma toggles_invariant (fid : Z) (bs : list bool) :
  forall w : World,
    indexOf (fields (layer w)) vis_field_name <> -1 ->
    isEditable (layer w) = false ->
    Forall (fun b => b = true) (commit_answers w) ->
    let w' := fold_left
                (fun w0 b => snd (update_feature_visibility_field fid b w0)) bs w in
    fields (layer w') = fields (layer w) /\
    isEditable (layer w') = false /\
    Forall (fun b => b = true) (commit_answers w').
Proof.
  induction bs as [|b rest IH]; intros w Hhas Hed Hans; simpl; [auto|].
  pose proof (toggle_world fid b w Hhas Hed) as Hw. cbv zeta in Hw.
  assert (Hok : match commit_answers w with [] => true | b0 :: _ => b0 end = true).
  { destruct (commit_answers w); [reflexivity|]. now inversion Hans. }
  rewrite Hok in Hw.
  assert (Hans' : Forall (fun b0 => b0 = true) (tl (commit_answers w))).
  { destruct (commit_answers w); [constructor|]. now inversion Hans. }
  specialize (IH (snd (update_feature_visibility_field fid b w))).
  rewrite Hw in IH. simpl in IH.
  specialize (IH Hhas eq_refl Hans'). cbv zeta in IH.
  rewrite Hw. exact IH.
Qed.

(** X2: of a run of toggles of one feature the last one wins, as long as
    the host accepts the commits: the feature reads as the last toggle
    says. *)
Theorem last_toggle_wins (fid : Z) (bs : list bool) (b : bool) (w : World) :
  let idx := indexOf (fields (layer w)) vis_field_name in
  let w' := fold_left
              (fun w0 b0 => snd (update_feature_visibility_field fid b0 w0))
              (bs ++ [b]) w in
  idx <> -1 ->
  isEditable (layer w) = false ->
  Forall (fun a => a = true) (commit_answers w) ->
  forall f', In f' (features (layer w')) -> id f' = fid ->
    is_visible idx f' = b.
Proof.
  intros idx w' Hhas Hed Hans f' Hin Hid.
  unfold w' in Hin. rewrite fold_left_app in Hin. simpl in Hin.
  destruct (toggles_invariant fid bs w Hhas Hed Hans) as (Hf & He & _).
  cbv zeta in Hf, He.
  set (w1 := fold_left
               (fun w0 b0 => snd (update_feature_visibility_field fid b0 w0)) bs w) in *.
  assert (Hhas1 : indexOf (fields (layer w1)) vis_field_name <> -1)
    by (rewrite Hf; exact Hhas).
  unfold idx. rewrite <- Hf.
  now apply (toggle_reads_back fid b w1 Hhas1 He).
Qed.

(** X3: a toggle on a layer that is in edit mode is dropped, yet the
    handler goes on: the stored flags stay as they were while the
    tracking dictionary takes the new state, and the subset expression is
    installed all the same. *)
Theorem checkbox_on_editable_layer
    (fv : Dict.dict string (Dict.dict Z bool)) (fid : Z) (visible : bool)
    (w : World) :
  let r := on_feature_checkbox_changed fv fid visible w in
  indexOf (fields (layer w)) vis_field_name <> -1 ->
  isEditable (layer w) = true ->
  features (layer (snd r)) = features (layer w) /\
  (exists tracked,
     Dict.get String.eqb (layer_id (layer w)) (fst r) = Some tracked /\
     Dict.get Z.eqb fid tracked = Some visible) /\
  subsetString (layer (snd r)) = vis_subset_string /\
  calls (snd r) =
    (calls w ++ [SetSubsetString vis_subset_string; TriggerRepaint; CanvasRefresh])%list.
Proof.
  intros r Hhas Hed. unfold r.
  unfold on_feature_checkbox_changed, update_feature_visibility_field,
    update_layer_visibility, bind, fields_indexOf, get_layer, ret.
  simpl.
  destruct (Z.eqb_spec (indexOf (fields (layer w)) vis_field_name) (-1));
    [contradiction|].
  rewrite Hed. simpl.
  destruct (Z.eqb_spec (indexOf (fields (layer w)) vis_field_name) (-1));
    [contradiction|].
  simpl. split; [reflexivity|]. split; [|split; [reflexivity|]].
  - eexists. split.
    + apply dict_get_set_same. apply String.eqb_eq.
    + apply dict_get_set_same. apply Z.eqb_eq.
  - now rewrite <- !app_assoc.
Qed.

(** ** Creating and removing the reserved field *)

Lemma indexOf_absent (fs : list string) (name : string) :
  indexOf fs name = -1 <-> ~ In name fs.
Proof.
  induction fs as [|f rest IH]; simpl; [tauto|].
  destruct (String.eqb_spec f name) as [->|Hne].
  - split; [discriminate|tauto].
  - pose proof (indexOf_range rest name) as Hr.
    destruct (Z.ltb_spec (indexOf rest name) 0).
    + split; [|reflexivity]. intros _ [H0|H0]; [contradiction|].
      apply IH; [lia|exact H0].
    + split; [lia|]. intros Hn. exfalso. apply Hn. right.
      destruct (in_dec string_dec name rest) as [Hin|Hnin]; [exact Hin|].
      apply IH in Hnin. lia.
Qed.

Lemma indexOf_app_new (fs : list string) (name : string) :
  indexOf fs name = -1 ->
  indexOf (fs ++ [name]) name = Z.of_nat (List.length fs).
Proof.
  induction fs as [|f rest IH]; simpl; intros Habs.
  - now rewrite String.eqb_refl.
  - destruct (String.eqb_spec f name) as [->|Hne]; [discriminate|].
    destruct (Z.ltb_spec (indexOf rest name) 0) as [Hlt|Hge]; [|lia].
    pose proof (indexOf_range rest name) as Hr.
    rewrite IH by lia.
    destruct (Z.ltb_spec (Z.of_nat (List.length rest)) 0); lia.
Qed.

Lemma indexOf_remove (fs : list string) (name : string) :
  NoDup fs ->
  0 <= indexOf fs name ->
  indexOf (remove_nth (Z.to_nat (indexOf fs name)) fs) name = -1.
Proof.
  induction fs as [|f rest IH]; simpl; intros Hnd Hidx; [lia|].
  inversion Hnd as [|? ? Hnin Hnd']; subst.
  destruct (String.eqb_spec f name) as [->|Hne]; simpl.
  - now apply indexOf_absent.
  - destruct (Z.ltb_spec (indexOf rest name) 0) as [Hlt|Hge]; [lia|].
    replace (Z.to_nat (indexOf rest name + 1)) with (S (Z.to_nat (indexOf rest name)))
      by lia.
    simpl. destruct (String.eqb_spec f name); [contradiction|].
    now rewrite IH.
Qed.

Lemma set_nth_last (v x : PyValue) (vs : list PyValue) :
  set_nth (List.length vs) v (vs ++ [x]) = (vs ++ [v])%list.
Proof. induction vs as [|y rest IH]; simpl; [reflexivity|now rewrite IH]. Qed.

Lemma remove_nth_last {A : Type} (x : A) (l : list A) :
  remove_nth (List.length l) (l ++ [x]) = l.
Proof. induction l as [|y rest IH]; simpl; [reflexivity|now rewrite IH]. Qed.

Lemma marked_step (fid : Z) (ids : list Z) (n : nat) (v : PyValue) (f : Feature) :
  marked ids n v (with_value fid n v f) = marked (fid :: ids) n v f.
Proof.
  unfold marked, with_value. simpl.
  destruct (Z.eqb_spec (id f) fid) as [E|E]; simpl.
  - destruct (existsb (Z.eqb (id f)) ids); [|reflexivity].
    now rewrite set_nth_twice.
  - reflexivity.
Qed.

Lemma marked_all (n : nat) (v : PyValue) (fs : list Feature) :
  map (marked (map id fs) n v) fs =
  map (fun f => mkFeature (id f) (set_nth n v (attributes f))) fs.
Proof.
  apply map_ext_in. intros f Hin. unfold marked.
  replace (existsb (Z.eqb (id f)) (map id fs)) with true; [reflexivity|].
  symmetry. apply existsb_exists. exists (id f).
  split; [now apply in_map | apply Z.eqb_refl].
Qed.

Lemma for_each_cons (f : Feature) (rest : list Feature)
    (body : Feature -> Host unit) (w : World) :
  for_each (f :: rest) body w = for_each rest body (snd (body f w)).
Proof. simpl. unfold bind. now destruct (body f w). Qed.

(** The loop of [ensure_visibility_field] over the records. *)
Lemma for_each_change_world (idx : Z) (v : PyValue) (fs : list Feature) :
  forall w : World,
    isEditable (layer w) = true ->
    let w' := snd (for_each fs
                (fun feature => changeAttributeValue (id feature) idx v) w) in
    layer w' =
      mkLayer (layer_id (layer w)) (fields (layer w))
        (map (marked (map id fs) (Z.to_nat idx) v) (features (layer w)))
        true (subsetString (layer w)) /\
    commit_answers w' = commit_answers w.
Proof.
  induction fs as [|f rest IH]; intros w Hed; cbv zeta.
  - simpl. split; [|reflexivity].
    destruct (layer w) as [i fl ft e s]. simpl in *. subst e. f_equal.
    symmetry. apply map_id.
  - rewrite !for_each_cons.
    unfold changeAttributeValue at 2 4. unfold bind, get_layer, called. simpl.
    rewrite Hed.
    match goal with
    | |- context [for_each rest _ ?w0] =>
        destruct (IH w0 eq_refl) as [Hl Hc]
    end.
    simpl in Hl, Hc.
    split; [|exact Hc].
    rewrite Hl. f_equal. rewrite map_map. apply map_ext. intros f0.
    apply (marked_step (id f) (map id rest) (Z.to_nat idx) v f0).
Qed.

Lemma getFeatures_unfiltered (l : Layer) :
  subsetString l <> vis_subset_string -> getFeatures l = features l.
Proof.
  intros Hs. unfold getFeatures.
  rewrite (filter_ext (subset_accepts l) (fun _ => true)).
  - induction (features l) as [|f rest IH]; simpl; [reflexivity|now rewrite IH].
  - intros f. unfold subset_accepts.
    destruct (String.eqb_spec (subsetString l) vis_subset_string);
      [contradiction|reflexivity].
Qed.

(** The layer [ensure_visibility_field] leaves when it creates the
    field. *)
Lemma ensure_creates_world (w : World) :
  indexOf (fields (layer w)) vis_field_name = -1 ->
  isEditable (layer w) = false ->
  hd true (commit_answers w) = true ->
  subsetString (layer w) <> vis_subset_string ->
  let l := layer w in
  let n := List.length (fields l) in
  fst (ensure_visibility_field w) = true /\
  layer (snd (ensure_visibility_field w)) =
    mkLayer (layer_id l) (fields l ++ [vis_field_name])
      (map (fun f => mkFeature (id f) (set_nth n (PyInt 1) (attributes f ++ [PyNone])))
         (features l))
      (negb (hd true (tl (commit_answers w)))) (subsetString l).
Proof.
  intros Habs Hed Hans Hsub. cbv zeta.
  unfold ensure_visibility_field, bind, fields_indexOf, get_layer, ret. simpl.
  rewrite Habs. simpl. rewrite Hed. simpl.
  replace (match commit_answers w with [] => true | b :: _ => b end) with true
    by (destruct (commit_answers w); [reflexivity|simpl in Hans; now subst]).
  simpl.
  rewrite (indexOf_app_new _ _ Habs).
  destruct (Z.geb_spec (Z.of_nat (List.length (fields (layer w)))) 0) as [_|Hlt]; [|lia].
  match goal with
  | |- context [for_each ?fs ?body ?w0] =>
      pose proof (for_each_change_world (Z.of_nat (List.length (fields (layer w))))
                    (PyInt 1) fs w0 eq_refl) as Hloop;
      destruct (for_each fs body w0) as [u w1]
  end.
  cbv zeta in Hloop. simpl in Hloop. destruct Hloop as [Hl Hc].
  simpl. split; [reflexivity|]. rewrite Hl, Hc. simpl.
  rewrite getFeatures_unfiltered by (simpl; exact Hsub). simpl.
  rewrite Nat2Z.id.
  rewrite marked_all, map_map. simpl.
  reflexivity.
Qed.

(** X4: on a layer without the reserved field that is not in edit mode,
    whose subset expression is not the plugin's and whose first commit
    the host accepts, [ensure_visibility_field] returns [True]; the field
    is then the last one, every record carries the flag 1 there and reads
    as visible, and the records and their other values are as before. *)
Theorem ensure_creates_field (w : World) :
  let l := layer w in
  let l' := layer (snd (ensure_visibility_field w)) in
  let idx' := indexOf (fields l') vis_field_name in
  indexOf (fields l) vis_field_name = -1 ->
  isEditable l = false ->
  hd true (commit_answers w) = true ->
  subsetString l <> vis_subset_string ->
  fst (ensure_visibility_field w) = true /\
  fields l' = (fields l ++ [vis_field_name])%list /\
  idx' = Z.of_nat (List.length (fields l)) /\
  map id (features l') = map id (features l) /\
  Forall (fun f' => attribute f' idx' = PyInt 1 /\ is_visible idx' f' = true)
    (features l') /\
  (well_formed l ->
   features l' =
     map (fun f => mkFeature (id f) (attributes f ++ [PyInt 1])) (features l)).
Proof.
  intros l l' idx' Habs Hed Hans Hsub.
  destruct (ensure_creates_world w Habs Hed Hans Hsub) as [Hr Hl].
  cbv zeta in Hl. fold l in Hl. fold l' in Hl.
  assert (Hidx : idx' = Z.of_nat (List.length (fields l))).
  { unfold idx'. rewrite Hl. simpl. now apply indexOf_app_new. }
  split; [exact Hr|]. split; [now rewrite Hl|]. split; [exact Hidx|].
  split; [|split].
  - rewrite Hl. simpl. rewrite map_map. reflexivity.
  - rewrite Hidx, Hl. simpl. apply Forall_forall. intros f' Hin.
    apply in_map_iff in Hin as [f [<- _]].
    assert (Ha : attribute
                   (mkFeature (id f)
                      (set_nth (List.length (fields l)) (PyInt 1) (attributes f ++ [PyNone])))
                   (Z.of_nat (List.length (fields l))) = PyInt 1).
    { unfold attribute. simpl. rewrite Nat2Z.id. apply nth_set_nth. }
    split; [exact Ha|].
    unfold is_visible.
    destruct (Z.geb_spec (Z.of_nat (List.length (fields l))) 0); [|lia].
    now rewrite Ha.
  - intros Hwf. rewrite Hl. simpl. apply map_ext_in. intros f Hin.
    unfold well_formed in Hwf. rewrite Forall_forall in Hwf.
    rewrite <- (Hwf f Hin). now rewrite set_nth_last.
Qed.

(** X5: when it cannot create the field, [ensure_visibility_field] returns
    [False] and writes no flag: on a layer in edit mode it makes no call
    at all, and when the host rejects the commit that adds the field it
    stops after that commit. *)
Theorem ensure_refused (w : World) :
  indexOf (fields (layer w)) vis_field_name = -1 ->
  (isEditable (layer w) = true -> ensure_visibility_field w = (false, w)) /\
  (isEditable (layer w) = false ->
   hd true (commit_answers w) = false ->
   fst (ensure_visibility_field w) = false /\
   calls (snd (ensure_visibility_field w)) =
     (calls w ++ [StartEditing; AddAttribute vis_field_name; CommitChanges false])%list /\
   features (layer (snd (ensure_visibility_field w))) =
     map (fun f => mkFeature (id f) (attributes f ++ [PyNone])) (features (layer w))).
Proof.
  intros Habs. split.
  - intros Hed.
    unfold ensure_visibility_field, bind, fields_indexOf, get_layer, ret. simpl.
    rewrite Habs. simpl. now rewrite Hed.
  - intros Hed Hans.
    unfold ensure_visibility_field, bind, fields_indexOf, get_layer, ret. simpl.
    rewrite Habs. simpl. rewrite Hed. simpl.
    destruct (commit_answers w) as [|b rest]; [discriminate Hans|].
    simpl in Hans. subst b. simpl.
    split; [reflexivity|]. split; [|reflexivity].
    now rewrite <- !app_assoc.
Qed.

(** X6: the teardown undoes the creation. On a well-formed layer with no
    subset expression, not in edit mode, [cleanup_visibility_fields]
    after [ensure_visibility_field] gives the layer back as it was, when
    the host accepts the commits. *)
Theorem cleanup_undoes_ensure (w : World) :
  indexOf (fields (layer w)) vis_field_name = -1 ->
  isEditable (layer w) = false ->
  Forall (fun a => a = true) (commit_answers w) ->
  subsetString (layer w) = EmptyString ->
  well_formed (layer w) ->
  cleanup_layer true (layer (snd (ensure_visibility_field w))) = layer w.
Proof.
  intros Habs Hed Hans Hsub Hwf.
  assert (H1 : hd true (commit_answers w) = true).
  { destruct (commit_answers w); [reflexivity|]. now inversion Hans. }
  assert (H2 : hd true (tl (commit_answers w)) = true).
  { destruct (commit_answers w) as [|a [|b rest]]; try reflexivity.
    inversion Hans as [|? ? _ Hrest]. now inversion Hrest. }
  assert (Hsub' : subsetString (layer w) <> vis_subset_string).
  { rewrite Hsub. discriminate. }
  destruct (ensure_creates_world w Habs Hed H1 Hsub') as [_ Hl].
  cbv zeta in Hl. rewrite Hl, H2. unfold cleanup_layer. simpl.
  rewrite (indexOf_app_new _ _ Habs).
  destruct (Z.geb_spec (Z.of_nat (List.length (fields (layer w)))) 0); [|lia].
  unfold delete_attribute. simpl. rewrite Nat2Z.id, remove_nth_last.
  rewrite map_map. simpl.
  destruct (layer w) as [i fl ft e s] eqn:El. simpl in *. subst e s. f_equal.
  rewrite <- (map_id ft) at 2. apply map_ext_in. intros f Hin.
  unfold well_formed in Hwf. simpl in Hwf. rewrite Forall_forall in Hwf.
  rewrite <- (Hwf f Hin), set_nth_last, remove_nth_last. now destruct f.
Qed.

(** X7: the teardown is idempotent. On a layer whose field names are
    distinct, running the loop body of [cleanup_visibility_fields] a
    second time changes nothing, whatever the host answered to the
    commits; and a layer without the reserved field is never touched. *)
Theorem cleanup_idempotent (ok1 ok2 : bool) (l : Layer) :
  (indexOf (fields l) vis_field_name = -1 -> cleanup_layer ok1 l = l) /\
  (NoDup (fields l) ->
   cleanup_layer ok2 (cleanup_layer ok1 l) = cleanup_layer ok1 l).
Proof.
  split.
  - intros Habs. unfold cleanup_layer. rewrite Habs. reflexivity.
  - intros Hnd.
    pose proof (indexOf_range (fields l) vis_field_name) as Hr.
    destruct (indexOf (fields l) vis_field_name >=? 0) eqn:Eidx.
    + assert (Hge : 0 <= indexOf (fields l) vis_field_name)
        by (destruct (Z.geb_spec (indexOf (fields l) vis_field_name) 0);
            [assumption|discriminate]).
      destruct (isEditable l) eqn:Hed.
      * assert (E : cleanup_layer ok1 l =
                    mkLayer (layer_id l) (fields l) (features l) true EmptyString).
        { unfold cleanup_layer. rewrite Eidx. simpl. now rewrite Hed. }
        rewrite E. unfold cleanup_layer. simpl. now rewrite Eidx.
      * assert (E : cleanup_layer ok1 l =
                    mkLayer (layer_id l)
                      (remove_nth (Z.to_nat (indexOf (fields l) vis_field_name)) (fields l))
                      (map (fun f => mkFeature (id f)
                              (remove_nth (Z.to_nat (indexOf (fields l) vis_field_name))
                                 (attributes f))) (features l))
                      (if ok1 then false else true) EmptyString).
        { unfold cleanup_layer. rewrite Eidx. simpl. now rewrite Hed. }
        rewrite E. unfold cleanup_layer. simpl.
        rewrite indexOf_remove by assumption. reflexivity.
    + assert (E : cleanup_layer ok1 l = l).
      { unfold cleanup_layer. now rewrite Eidx. }
      rewrite E. unfold cleanup_layer. now rewrite Eidx.
Qed.

(** ** The panel and the map *)

Lemma plugin_flag_visible (v : PyValue) :
  plugin_flag v = true ->
  (is_not_none v && ne_zero v) = match v with PyInt n => n =? 1 | _ => false end.
Proof.
  destruct v as [| b | n | x | s | t]; simpl; try discriminate.
  intros H. apply orb_true_iff in H as [H|H]; apply Z.eqb_eq in H; now subst.
Qed.

(** Under the plugin's subset expression the host keeps a record exactly
    when its flag is the integer 1. *)
Lemma subset_accepts_flag (l : Layer) (f : Feature) :
  subsetString l = vis_subset_string ->
  0 <= indexOf (fields l) vis_field_name ->
  subset_accepts l f =
    match attribute f (indexOf (fields l) vis_field_name) with
    | PyInt n => n =? 1
    | _ => false
    end.
Proof.
  intros Hsub Hidx. unfold subset_accepts. rewrite Hsub, String.eqb_refl.
  destruct (Z.ltb_spec (indexOf (fields l) vis_field_name) 0); [lia|reflexivity].
Qed.

Lemma getFeatures_by_flag (l : Layer) :
  subsetString l = vis_subset_string ->
  0 <= indexOf (fields l) vis_field_name ->
  plugin_flags l ->
  getFeatures l = filter (is_visible (indexOf (fields l) vis_field_name)) (features l).
Proof.
  intros Hsub Hidx Hflags. unfold getFeatures.
  apply filter_ext_in. intros f Hin.
  unfold plugin_flags in Hflags. rewrite Forall_forall in Hflags.
  specialize (Hflags f Hin).
  unfold subset_accepts, is_visible. rewrite Hsub, String.eqb_refl.
  destruct (Z.ltb_spec (indexOf (fields l) vis_field_name) 0); [lia|].
  destruct (Z.geb_spec (indexOf (fields l) vis_field_name) 0); [|lia].
  now rewrite plugin_flag_visible.
Qed.

Lemma update_layer_visibility_present (w : World) :
  indexOf (fields (layer w)) vis_field_name <> -1 ->
  layer (snd (update_layer_visibility w)) =
    mkLayer (layer_id (layer w)) (fields (layer w)) (features (layer w))
      (isEditable (layer w)) vis_subset_string.
Proof.
  intros Hhas.
  unfold update_layer_visibility, bind, fields_indexOf, get_layer, ret. simpl.
  destruct (Z.eqb_spec (indexOf (fields (layer w)) vis_field_name) (-1));
    [contradiction|reflexivity].
Qed.

(** X8: the map against the panel, once [update_layer_visibility] has
    run on a layer that has the reserved field. Every record the host
    enumerates reads as visible in the panel. On a layer whose flags are
    only the integers 0 and 1 the host enumerates exactly the records the
    panel reads as visible, in the layer's order. A record whose flag is
    the host's null is out of step: it reads as visible in the panel and
    the host leaves it out. A record whose flag is [None] is hidden in
    both. *)
Theorem map_shows_what_panel_reads (w : World) :
  let idx := indexOf (fields (layer w)) vis_field_name in
  let l' := layer (snd (update_layer_visibility w)) in
  idx <> -1 ->
  (forall f : Feature, In f (getFeatures l') -> is_visible idx f = true) /\
  (plugin_flags (layer w) ->
   getFeatures l' = filter (is_visible idx) (features (layer w))) /\
  (forall f : Feature,
     attribute f idx = NULL ->
     is_visible idx f = true /\ subset_accepts l' f = false) /\
  (forall f : Feature,
     attribute f idx = PyNone ->
     is_visible idx f = false /\ subset_accepts l' f = false).
Proof.
  intros idx l' Hhas.
  pose proof (indexOf_range (fields (layer w)) vis_field_name) as Hr.
  assert (Hidx : 0 <= idx) by (destruct Hr; [contradiction|assumption]).
  assert (El : l' =
    mkLayer (layer_id (layer w)) (fields (layer w)) (features (layer w))
      (isEditable (layer w)) vis_subset_string)
    by (now apply update_layer_visibility_present).
  assert (Hacc : forall f : Feature,
            subset_accepts l' f =
              match attribute f idx with PyInt n => n =? 1 | _ => false end).
  { intros f. rewrite El. now apply subset_accepts_flag. }
  assert (Hvis : forall f : Feature,
            is_visible idx f = is_not_none (attribute f idx) && ne_zero (attribute f idx)).
  { intros f. unfold is_visible.
    destruct (Z.geb_spec idx 0) as [_|Hlt]; [reflexivity|lia]. }
  split; [|split; [|split]].
  - intros f Hin. unfold getFeatures in Hin.
    apply filter_In in Hin as [_ Hf]. rewrite Hacc in Hf. rewrite Hvis.
    destruct (attribute f idx) as [| b | n | x | s | t]; try discriminate Hf.
    apply Z.eqb_eq in Hf. now subst n.
  - intros Hflags. rewrite El.
    rewrite getFeatures_by_flag; simpl; [reflexivity|reflexivity|exact Hidx|exact Hflags].
  - intros f Hnull. rewrite Hvis, Hacc, Hnull. now split.
  - intros f Hnone. rewrite Hvis, Hacc, Hnone. now split.
Qed.

Lemma with_value_keeps_flags (fid : Z) (visible : bool) (l : Layer) :
  0 <= indexOf (fields l) vis_field_name ->
  plugin_flags l ->
  Forall (fun f => plugin_flag (attribute f (indexOf (fields l) vis_field_name)) = true)
    (map (with_value fid (Z.to_nat (indexOf (fields l) vis_field_name))
            (PyInt (if visible then 1 else 0))) (features l)).
Proof.
  intros Hidx Hflags. unfold plugin_flags in Hflags.
  rewrite Forall_forall in *. intros f' Hin.
  apply in_map_iff in Hin as [f [<- Hf]]. unfold with_value.
  destruct (id f =? fid); [|now apply Hflags].
  unfold attribute. simpl. rewrite nth_set_nth. now destruct visible.
Qed.

(** X9: the checkbox handler keeps the panel and the map in step. On a
    layer that has the reserved field, is not in edit mode and has only
    the flags 0 and 1 (no null, no other value), after
    [on_feature_checkbox_changed] the flags are still only 0 and 1 and
    the host enumerates exactly the records that read as visible. *)
Theorem checkbox_keeps_map_in_step
    (fv : Dict.dict string (Dict.dict Z bool)) (fid : Z) (visible : bool)
    (w : World) :
  let idx := indexOf (fields (layer w)) vis_field_name in
  let l' := layer (snd (on_feature_checkbox_changed fv fid visible w)) in
  idx <> -1 ->
  isEditable (layer w) = false ->
  plugin_flags (layer w) ->
  plugin_flags l' /\
  getFeatures l' = filter (is_visible idx) (features l').
Proof.
  intros idx l' Hhas Hed Hflags.
  pose proof (indexOf_range (fields (layer w)) vis_field_name) as Hr.
  assert (Hidx : 0 <= idx) by (destruct Hr; [contradiction|assumption]).
  assert (El : l' =
    mkLayer (layer_id (layer w)) (fields (layer w))
      (map (with_value fid (Z.to_nat idx) (PyInt (if visible then 1 else 0)))
         (features (layer w)))
      (if match commit_answers w with [] => true | b :: _ => b end then false else true)
      vis_subset_string).
  { unfold l', on_feature_checkbox_changed. unfold bind at 1 2. unfold get_layer at 1.
    pose proof (toggle_world fid visible w Hhas Hed) as Hw. cbv zeta in Hw.
    destruct (update_feature_visibility_field fid visible w) as [u w1].
    simpl in Hw. subst w1. unfold bind.
    match goal with
    | |- context [update_layer_visibility ?w0] =>
        pose proof (update_layer_visibility_present w0) as Hu;
        destruct (update_layer_visibility w0) as [u2 w2]
    end.
    simpl in *. now apply Hu. }
  assert (Hflags' : plugin_flags l').
  { rewrite El. unfold plugin_flags. simpl.
    now apply with_value_keeps_flags. }
  split; [exact Hflags'|].
  rewrite getFeatures_by_flag.
  - rewrite El. reflexivity.
  - rewrite El. reflexivity.
  - rewrite El. simpl. exact Hidx.
  - exact Hflags'.
Qed.

Lemma populate_loop_Forall (P : Row -> Prop) (l : Layer) (flt : Filters)
    (idx : Z) (limit : option Z) (fs : list Feature) :
  (forall f, In f fs -> P (id f, f, is_visible idx f)) ->
  forall (seen : Dict.dict Z bool) (acc : list Row),
    Forall P acc ->
    Forall P (snd (populate_loop l flt idx limit fs seen acc)).
Proof.
  induction fs as [|f rest IH]; intros Hfs seen acc Hacc; simpl; [exact Hacc|].
  assert (Hrest : forall g, In g rest -> P (id g, g, is_visible idx g))
    by (intros g Hg; apply Hfs; now right).
  destruct (feature_matches_filters f l flt); simpl; [|now apply IH].
  assert (Hacc' : Forall P (acc ++ [(id f, f, is_visible idx f)])).
  { apply Forall_app. split; [exact Hacc|].
    constructor; [apply Hfs; now left|constructor]. }
  match goal with |- context [if ?b then _ else _] => destruct b end;
    [exact Hacc' | now apply IH].
Qed.

Lemma populate_rows_checked (st : Settings) (l : Layer) :
  subsetString l = vis_subset_string ->
  Forall (fun r : Row => snd r = true /\ In (snd (fst r)) (features l))
    (snd (populate st l)).
Proof.
  intros Hsub. unfold populate.
  apply populate_loop_Forall; [|constructor].
  intros f Hin. simpl.
  unfold getFeatures in Hin. apply filter_In in Hin as [Hin Hacc].
  split; [|exact Hin].
  unfold subset_accepts in Hacc. rewrite Hsub, String.eqb_refl in Hacc.
  unfold is_visible.
  destruct (Z.ltb_spec (indexOf (fields l) vis_field_name) 0); [discriminate|].
  destruct (Z.geb_spec (indexOf (fields l) vis_field_name) 0); [|lia].
  destruct (attribute f (indexOf (fields l) vis_field_name)); try discriminate.
  simpl. apply Z.eqb_eq in Hacc. now subst.
Qed.

(** X10: once the plugin's subset expression is on the layer, the
    population pass lists no hidden feature: every row it builds is
    checked, because the host no longer enumerates the records whose flag
    is not 1. *)
Theorem hidden_features_leave_the_list (st : Settings) (l : Layer) :
  subsetString l = vis_subset_string ->
  Forall (fun r : Row => snd r = true /\ In (snd (fst r)) (features l))
    (snd (populate st l)).
Proof. apply populate_rows_checked. Qed.

Lemma populate_loop_keeps_seen (l : Layer) (flt : Filters) (idx : Z)
    (limit : option Z) (fs : list Feature) (fid : Z) (b : bool) :
  forall (seen : Dict.dict Z bool) (acc : list Row),
    Dict.get Z.eqb fid seen = Some b ->
    Dict.get Z.eqb fid (fst (populate_loop l flt idx limit fs seen acc)) = Some b.
Proof.
  induction fs as [|f rest IH]; intros seen acc Hget; simpl; [exact Hget|].
  destruct (feature_matches_filters f l flt); simpl; [|now apply IH].
  assert (Hget' : Dict.get Z.eqb fid
            (if negb (Dict.mem Z.eqb (id f) seen)
             then Dict.set Z.eqb (id f) (is_visible idx f) seen else seen) = Some b).
  { unfold Dict.mem. destruct (Dict.get Z.eqb (id f) seen) eqn:E; simpl; [exact Hget|].
    rewrite (dict_get_set_other Z.eqb Z.eqb_eq); [exact Hget|].
    intros ->. congruence. }
  match goal with |- context [if ?c then (_, _) else _] => destruct c end;
    [exact Hget' | now apply IH].
Qed.

Lemma populate_loop_tracks (l : Layer) (flt : Filters) (idx : Z)
    (limit : option Z) (fs : list Feature) :
  forall (seen : Dict.dict Z bool) (acc : list Row),
    Forall (fun r : Row => Dict.mem Z.eqb (fst (fst r)) seen = true) acc ->
    Forall (fun r : Row =>
              Dict.mem Z.eqb (fst (fst r))
                (fst (populate_loop l flt idx limit fs seen acc)) = true)
      (snd (populate_loop l flt idx limit fs seen acc)).
Proof.
  induction fs as [|f rest IH]; intros seen acc Hacc; simpl; [exact Hacc|].
  destruct (feature_matches_filters f l flt); simpl; [|now apply IH].
  set (seen' := if negb (Dict.mem Z.eqb (id f) seen)
                then Dict.set Z.eqb (id f) (is_visible idx f) seen else seen).
  assert (Hmono : forall k, Dict.mem Z.eqb k seen = true -> Dict.mem Z.eqb k seen' = true).
  { intros k Hk. unfold seen'. destruct (Dict.mem Z.eqb (id f) seen) eqn:E; simpl; [exact Hk|].
    unfold Dict.mem in *. destruct (Z.eq_dec k (id f)) as [->|Hne].
    - now rewrite (dict_get_set_same Z.eqb Z.eqb_eq).
    - now rewrite (dict_get_set_other Z.eqb Z.eqb_eq). }
  assert (Hnew : Dict.mem Z.eqb (id f) seen' = true).
  { unfold seen'. destruct (Dict.mem Z.eqb (id f) seen) eqn:E; simpl; [exact E|].
    unfold Dict.mem. now rewrite (dict_get_set_same Z.eqb Z.eqb_eq). }
  assert (Hacc' : Forall (fun r : Row => Dict.mem Z.eqb (fst (fst r)) seen' = true)
                    (acc ++ [(id f, f, is_visible idx f)])).
  { apply Forall_app. split.
    - eapply Forall_impl; [|exact Hacc]. intros r Hr. now apply Hmono.
    - constructor; [exact Hnew|constructor]. }
  match goal with |- context [if ?c then (_, _) else _] => destruct c end;
    [exact Hacc' | now apply IH].
Qed.

(** X11: the population pass never overwrites what the tracking
    dictionary already holds for a feature, whatever the flag on the
    layer says now; it only adds entries, one for every feature it lists
    that had none. *)
Theorem populate_keeps_tracked (st : Settings) (l : Layer) :
  let seen :=
    match Dict.get String.eqb (layer_id l) (feature_visibility st) with
    | Some d => d | None => [] end in
  (forall fid b,
     Dict.get Z.eqb fid seen = Some b ->
     Dict.get Z.eqb fid (fst (populate st l)) = Some b) /\
  Forall (fun r : Row => Dict.mem Z.eqb (fst (fst r)) (fst (populate st l)) = true)
    (snd (populate st l)).
Proof.
  intros seen. split.
  - intros fid b Hget. unfold populate. now apply populate_loop_keeps_seen.
  - unfold populate. apply populate_loop_tracks. constructor.
Qed.

Lemma on_layer_selected_world (st : Settings) (w : World) :
  let w1 := snd (ensure_visibility_field w) in
  snd (fst (on_layer_selected st w)) = snd (populate st (layer w1)) /\
  snd (on_layer_selected st w) = snd (update_layer_visibility w1).
Proof.
  cbv zeta. unfold on_layer_selected, bind, get_layer, ret.
  destruct (ensure_visibility_field w) as [r w1]. simpl.
  destruct (populate st (layer w1)) as [seen rows].
  destruct (update_layer_visibility w1) as [u w2]. now split.
Qed.

(** X12: selecting a layer ends with the plugin's subset expression on
    it and a redraw, when the reserved field is there or could be made;
    and selecting the layer again, as long as it keeps its fields and
    that expression, lists checked features only: the features hidden
    meanwhile are no longer offered. *)
Theorem reselecting_lists_visible_only (st st2 : Settings) (w : World) :
  let w1 := snd (on_layer_selected st w) in
  fst (ensure_visibility_field w) = true ->
  subsetString (layer w1) = vis_subset_string /\
  (exists before,
     calls w1 =
       (before ++ [SetSubsetString vis_subset_string; TriggerRepaint; CanvasRefresh])%list) /\
  (forall w2 : World,
     fields (layer w2) = fields (layer w1) ->
     subsetString (layer w2) = vis_subset_string ->
     Forall (fun r : Row => snd r = true)
       (snd (fst (on_layer_selected st2 w2)))).
Proof.
  intros w1 Hok.
  pose proof (ensure_has_field w Hok) as Hhas.
  destruct (on_layer_selected_world st w) as [_ Hw]. cbv zeta in Hw.
  assert (Hl : layer w1 =
    mkLayer (layer_id (layer (snd (ensure_visibility_field w))))
      (fields (layer (snd (ensure_visibility_field w))))
      (features (layer (snd (ensure_visibility_field w))))
      (isEditable (layer (snd (ensure_visibility_field w)))) vis_subset_string).
  { unfold w1. rewrite Hw. now apply update_layer_visibility_present. }
  split; [now rewrite Hl|]. split.
  - unfold w1. rewrite Hw.
    unfold update_layer_visibility, bind, fields_indexOf, get_layer, ret. simpl.
    destruct (Z.eqb_spec
      (indexOf (fields (layer (snd (ensure_visibility_field w)))) vis_field_name) (-1));
      [contradiction|].
    simpl. exists (calls (snd (ensure_visibility_field w))).
    now rewrite <- !app_assoc.
  - intros w2 Hfields Hsub.
    assert (Hhas2 : indexOf (fields (layer w2)) vis_field_name <> -1).
    { rewrite Hfields, Hl. exact Hhas. }
    destruct (on_layer_selected_world st2 w2) as [Hrows _]. cbv zeta in Hrows.
    rewrite Hrows, (ensure_present w2 Hhas2). simpl.
    eapply Forall_impl; [|apply (populate_rows_checked st2 (layer w2) Hsub)].
    intros r [Hr _]. exact Hr.
Qed.

(** ** More on the filter evaluator *)

Lemma forallb_permutation {A : Type} (p : A -> bool) (a b : list A) :
  Permutation a b -> forallb p a = forallb p b.
Proof.
  induction 1 as [| x a b _ IH | x y a | a b c _ IH1 _ IH2]; simpl.
  - reflexivity.
  - now rewrite IH.
  - now rewrite !andb_assoc, (andb_comm (p y)).
  - now rewrite IH1.
Qed.

(** X13: the rules are a conjunction, whatever their order: the evaluator
    on two rule sets put together is the conjunction of its results on
    each, and reordering the rules does not change its result. *)
Theorem rules_are_a_conjunction (feature : Feature) (l : Layer) (a b : Filters) :
  feature_matches_filters feature l (a ++ b)%list =
    feature_matches_filters feature l a && feature_matches_filters feature l b /\
  (Permutation a b ->
   feature_matches_filters feature l a = feature_matches_filters feature l b).
Proof.
  rewrite !feature_matches_filters_forallb. split.
  - apply forallb_app.
  - apply forallb_permutation.
Qed.

Lemma forallb_filter {A : Type} (p q : A -> bool) (l : list A) :
  forallb p (filter q l) = forallb (fun x => negb (q x) || p x) l.
Proof.
  induction l as [|x rest IH]; simpl; [reflexivity|].
  destruct (q x); simpl; now rewrite IH.
Qed.

(** X14: a rule on a field that is not selected for display is dormant.
    With the active rules of the population pass, a feature passes
    exactly when it passes every rule whose field is selected; with no
    field selected every feature passes. *)
Theorem unselected_rules_are_dormant (feature : Feature) (l : Layer)
    (rules : Filters) (selected : list string) :
  feature_matches_filters feature l (active_filters_of rules selected) =
    forallb (fun item => negb (existsb (String.eqb (fst item)) selected)
                         || rule_passes feature l item) rules /\
  feature_matches_filters feature l (active_filters_of rules []) = true.
Proof.
  rewrite !feature_matches_filters_forallb. unfold active_filters_of. split.
  - apply forallb_filter.
  - rewrite forallb_filter. simpl. now induction rules.
Qed.

(** X15: a rule whose text is blank, or whose field the layer does not
    have, never decides: removing such rules leaves the result of the
    evaluator as it is. *)
Theorem skipped_rules_do_not_decide (feature : Feature) (l : Layer) (rules : Filters) :
  feature_matches_filters feature l rules =
  feature_matches_filters feature l (filter (rule_effective l) rules).
Proof.
  rewrite !feature_matches_filters_forallb, forallb_filter.
  induction rules as [|[k d] rest IH]; simpl; [reflexivity|].
  rewrite <- IH. f_equal.
  unfold rule_effective. simpl.
  destruct (PyStr.strip (filter_value d) =? EmptyString)%string; simpl; [reflexivity|].
  destruct (Z.ltb_spec (indexOf (fields l) k) 0);
    destruct (Z.leb_spec 0 (indexOf (fields l) k)); simpl; try lia; reflexivity.
Qed.

Lemma lower_char_idempotent (c : ascii) :
  PyStr.lower_char (PyStr.lower_char c) = PyStr.lower_char c.
Proof.
  destruct c as [[] [] [] [] [] [] [] []]; reflexivity.
Qed.

Lemma lower_idempotent (s : string) : PyStr.lower (PyStr.lower s) = PyStr.lower s.
Proof.
  induction s as [|c rest IH]; [reflexivity|].
  unfold PyStr.lower in *. simpl. now rewrite lower_char_idempotent, IH.
Qed.

Lemma lower_empty (s : string) : PyStr.lower s = EmptyString -> s = EmptyString.
Proof. destruct s; [reflexivity|discriminate]. Qed.

(** X16: the four text kinds ignore case: the rule text and a text
    attribute may each be replaced by their lower-case form without
    changing whether the rule matches. *)
Theorem text_rules_ignore_case (kind text s : string) (v : PyValue) :
  In kind text_kinds ->
  rule_matches kind v text = rule_matches kind v (PyStr.lower text) /\
  rule_matches kind (PyString s) text =
    rule_matches kind (PyString (PyStr.lower s)) text.
Proof.
  intros Hk. simpl in Hk.
  destruct Hk as [<-|[<-|[<-|[<-|[]]]]]; unfold rule_matches; simpl;
    now rewrite !lower_idempotent.
Qed.

Lemma startswith_empty (p : string) :
  PyStr.startswith EmptyString p = true -> p = EmptyString.
Proof. destruct p; [reflexivity|discriminate]. Qed.

(** X17: text rules on a missing value. A feature whose value in the
    rule's field is [None] is rejected by every text rule with a text
    that is not blank: [None] is compared as the empty text. The host's
    null is not [None]: the rule is compared with its text, NULL, so the
    rule "Contains ul" accepts a record whose value is the host's null. *)
Theorem missing_value_in_text_rules (feature : Feature) (l : Layer)
    (field_name kind text : string) :
  let v := attribute feature (indexOf (fields l) field_name) in
  let result :=
    feature_matches_filters feature l [(field_name, mkFilterData kind text)] in
  In kind text_kinds ->
  PyStr.strip text <> EmptyString ->
  0 <= indexOf (fields l) field_name ->
  (v = PyNone -> result = false) /\
  (v = NULL -> result = rule_matches kind (PyString "NULL") (PyStr.strip text)) /\
  (v = NULL -> kind = "Contains" ->
   result = PyStr.contains "null" (PyStr.lower (PyStr.strip text))).
Proof.
  intros v result Hk Htext Hidx.
  assert (Hr : result = rule_matches kind v (PyStr.strip text))
    by (now apply single_rule_decides).
  rewrite Hr. clear Hr result.
  split; [|split].
  - intros Hnone. rewrite Hnone.
    assert (Hl : PyStr.lower (PyStr.strip text) <> EmptyString).
    { intros E. apply lower_empty in E. contradiction. }
    destruct (PyStr.lower (PyStr.strip text)) as [|c rest] eqn:E; [contradiction|].
    simpl in Hk.
    destruct Hk as [<-|[<-|[<-|[<-|[]]]]]; unfold rule_matches; simpl;
      rewrite E; reflexivity.
  - intros Hnull. rewrite Hnull. simpl in Hk.
    destruct Hk as [<-|[<-|[<-|[<-|[]]]]]; reflexivity.
  - intros Hnull ->. rewrite Hnull. reflexivity.
Qed.

Lemma startswith_refl (s : string) : PyStr.startswith s s = true.
Proof.
  induction s as [|c rest IH]; [reflexivity|].
  simpl. now rewrite Ascii.eqb_refl.
Qed.

Lemma endswith_refl (s : string) : PyStr.endswith s s = true.
Proof. destruct s; simpl; [reflexivity|]. now rewrite Ascii.eqb_refl, String.eqb_refl. Qed.

Lemma startswith_contains (s p : string) :
  PyStr.startswith s p = true -> PyStr.contains s p = true.
Proof. intros H. destruct s; simpl in *; now rewrite H. Qed.

Lemma endswith_contains (s p : string) :
  PyStr.endswith s p = true -> PyStr.contains s p = true.
Proof.
  induction s as [|c rest IH]; intros H.
  - destruct p; [reflexivity|discriminate H].
  - cbn [PyStr.endswith] in H. apply orb_true_iff in H as [H|H].
    + apply String.eqb_eq in H. subst p. apply startswith_contains, startswith_refl.
    + cbn [PyStr.contains]. rewrite (IH H). apply orb_true_r.
Qed.

(** X18: the text kinds are ordered: a value that matches an "Equals"
    rule matches the same rule as "Starts with" and as "Ends with", and a
    value that matches either of these matches it as "Contains". *)
Theorem text_kinds_are_ordered (v : PyValue) (text : string) :
  (rule_matches "Equals" v text = true ->
   rule_matches "Starts with" v text = true /\
   rule_matches "Ends with" v text = true) /\
  (rule_matches "Starts with" v text = true ->
   rule_matches "Contains" v text = true) /\
  (rule_matches "Ends with" v text = true ->
   rule_matches "Contains" v text = true).
Proof.
  unfold rule_matches; simpl. split; [|split].
  - intros H. apply String.eqb_eq in H. rewrite H.
    split; [apply startswith_refl | apply endswith_refl].
  - apply startswith_contains.
  - apply endswith_contains.
Qed.
End FurtherProperties.

(** ** The settings store *)

Lemma join_not_empty (sep : ascii) (parts : list string) :
  parts <> [] -> parts <> [EmptyString] ->
  (PyStr.join (String sep EmptyString) parts =? EmptyString)%string = false.
Proof.
  intros Hne Hne1. unfold PyStr.join.
  destruct parts as [|p [|q rest]]; [contradiction| |].
  - simpl. destruct p; [contradiction|reflexivity].
  - change (concat (String sep EmptyString) (p :: q :: rest))
      with (p ++ String sep (concat (String sep EmptyString) (q :: rest))).
    apply append_sep_not_empty.
Qed.

(** X19: the selected attributes of a layer come back from the store as
    they were saved when no name holds a comma (and the list is not the
    one empty name); a name with a comma comes back as two names. *)
Theorem attributes_roundtrip (attrs_list : list string) :
  (Forall (fun a => has_char "," a = false) attrs_list ->
   attrs_list <> [EmptyString] ->
   match load_attributes (save_attributes attrs_list) with
   | Some l => l
   | None => []
   end = attrs_list) /\
  (forall a b : string,
     has_char "," a = false -> has_char "," b = false ->
     load_attributes (save_attributes [a ++ "," ++ b]) = Some [a; b]).
Proof.
  split.
  - intros Hfree Hne. unfold load_attributes, save_attributes.
    destruct attrs_list as [|a rest]; [reflexivity|].
    rewrite join_not_empty by (discriminate || exact Hne).
    apply split_join; [discriminate|exact Hfree].
  - intros a b Ha Hb. unfold load_attributes, save_attributes, PyStr.join.
    cbn [concat append].
    rewrite append_sep_not_empty.
    rewrite split_app_sep by (assumption || discriminate).
    now rewrite split_no_sep.
Qed.

Lemma dict_set_keys_NoDup {V : Type} (k : string) (v : V) (d : Dict.dict string V) :
  NoDup (Dict.keys d) -> NoDup (Dict.keys (Dict.set String.eqb k v d)).
Proof.
  intros Hnd. rewrite (dict_keys_set String.eqb). unfold Dict.mem.
  destruct (Dict.get String.eqb k d) eqn:E; [exact Hnd|].
  apply (dict_get_none String.eqb String.eqb_eq) in E.
  apply NoDup_app; [exact Hnd| |].
  - constructor; [intros []|constructor].
  - intros x Hx [<-|[]]. contradiction.
Qed.

Lemma save_fold_keys (lf : Dict.dict string Filters) (la : Dict.dict string (list string)) :
  forall gs : Dict.dict string Group,
    NoDup (Dict.keys gs) ->
    NoDup (Dict.keys (fold_left (save_layer lf) la gs)).
Proof.
  induction la as [|[k a] rest IH]; intros gs Hnd; simpl; [exact Hnd|].
  apply IH. unfold save_layer. now apply dict_set_keys_NoDup.
Qed.

Lemma save_fold_get (lf : Dict.dict string Filters) (la : Dict.dict string (list string))
    (lid : string) :
  NoDup (Dict.keys la) ->
  forall gs : Dict.dict string Group,
    Dict.get String.eqb lid (fold_left (save_layer lf) la gs) =
    match Dict.get String.eqb lid la with
    | Some attrs =>
        Some (layer_group lf
                (match Dict.get String.eqb lid gs with
                 | Some g => g | None => mkGroup None None end)
                lid attrs)
    | None => Dict.get String.eqb lid gs
    end.
Proof.
  induction la as [|[k a] rest IH]; intros Hnd gs; simpl; [reflexivity|].
  inversion Hnd as [|? ? Hnin Hnd']; subst.
  rewrite (IH Hnd'). unfold save_layer. simpl.
  destruct (String.eqb_spec lid k) as [->|Hne].
  - apply (dict_get_none String.eqb String.eqb_eq) in Hnin. rewrite Hnin.
    now rewrite (dict_get_set_same String.eqb String.eqb_eq).
  - now rewrite (dict_get_set_other String.eqb String.eqb_eq) by exact Hne.
Qed.

Lemma kept_groups (gs : Dict.dict string Group) (lid : string) :
  lid <> "featureLimit" ->
  Dict.get String.eqb lid
    (filter (fun e : string * Group => (fst e =? "featureLimit")%string) gs) = None.
Proof.
  intros Hne. induction gs as [|[k g] rest IH]; simpl; [reflexivity|].
  destruct (String.eqb_spec k "featureLimit") as [->|_]; simpl; [|exact IH].
  destruct (String.eqb_spec lid "featureLimit"); [contradiction|exact IH].
Qed.

Lemma kept_groups_NoDup (gs : Dict.dict string Group) :
  NoDup (Dict.keys gs) ->
  NoDup (Dict.keys
    (filter (fun e : string * Group => (fst e =? "featureLimit")%string) gs)).
Proof.
  induction gs as [|[k g] rest IH]; simpl; intros Hnd; [constructor|].
  inversion Hnd as [|? ? Hnin Hnd']; subst.
  destruct (k =? "featureLimit")%string; simpl; [|now apply IH].
  constructor; [|now apply IH].
  intros Hin. apply Hnin. unfold Dict.keys in *.
  apply in_map_iff in Hin as [e [He Hin]]. apply filter_In in Hin as [Hin _].
  apply in_map_iff. now exists e.
Qed.

Lemma load_fold_limit (gs : Dict.dict string Group) :
  forall st : Settings,
    feature_limit (fold_left load_layer gs st) = feature_limit st /\
    feature_visibility (fold_left load_layer gs st) = feature_visibility st.
Proof.
  induction gs as [|[k g] rest IH]; intros st; simpl; [now split|].
  destruct (IH (load_layer st (k, g))) as [H1 H2]. rewrite H1, H2.
  unfold load_layer. simpl. now destruct (k =? "featureLimit")%string.
Qed.

Lemma load_fold_get (gs : Dict.dict string Group) (lid : string) :
  lid <> "featureLimit" ->
  NoDup (Dict.keys gs) ->
  forall st : Settings,
    Dict.get String.eqb lid (layer_attributes (fold_left load_layer gs st)) =
      match Dict.get String.eqb lid gs with
      | Some g =>
          match load_attributes (settings_value (attributes_value g)) with
          | Some a => Some a
          | None => Dict.get String.eqb lid (layer_attributes st)
          end
      | None => Dict.get String.eqb lid (layer_attributes st)
      end /\
    Dict.get String.eqb lid (layer_filters (fold_left load_layer gs st)) =
      match Dict.get String.eqb lid gs with
      | Some g =>
          match load_filters (settings_value (filters_value g)) with
          | Some f => Some f
          | None => Dict.get String.eqb lid (layer_filters st)
          end
      | None => Dict.get String.eqb lid (layer_filters st)
      end.
Proof.
  intros Hlid.
  induction gs as [|[k g] rest IH]; intros Hnd st; simpl; [now split|].
  inversion Hnd as [|? ? Hnin Hnd']; subst.
  destruct (IH Hnd' (load_layer st (k, g))) as [Ha Hf]. rewrite Ha, Hf.
  destruct (String.eqb_spec lid k) as [->|Hne].
  - apply (dict_get_none String.eqb String.eqb_eq) in Hnin. rewrite Hnin.
    unfold load_layer. simpl.
    destruct (String.eqb_spec k "featureLimit"); [contradiction|]. simpl.
    split.
    + destruct (load_attributes (settings_value (attributes_value g)));
        [now rewrite (dict_get_set_same String.eqb String.eqb_eq)|reflexivity].
    + destruct (load_filters (settings_value (filters_value g)));
        [now rewrite (dict_get_set_same String.eqb String.eqb_eq)|reflexivity].
  - assert (Hsame :
      Dict.get String.eqb lid (layer_attributes (load_layer st (k, g))) =
        Dict.get String.eqb lid (layer_attributes st) /\
      Dict.get String.eqb lid (layer_filters (load_layer st (k, g))) =
        Dict.get String.eqb lid (layer_filters st)).
    { unfold load_layer. simpl.
      destruct (k =? "featureLimit")%string; [now split|]. simpl. split.
      - destruct (load_attributes (settings_value (attributes_value g)));
          [now rewrite (dict_get_set_other String.eqb String.eqb_eq)|reflexivity].
      - destruct (load_filters (settings_value (filters_value g)));
          [now rewrite (dict_get_set_other String.eqb String.eqb_eq)|reflexivity]. }
    destruct Hsame as [-> ->]. now split.
Qed.

(** The group of a layer in the store after [save_settings]. *)
Lemma save_settings_group (st : Settings) (store : Store) (lid : string) :
  NoDup (Dict.keys (layer_attributes st)) ->
  lid <> "featureLimit" ->
  Dict.get String.eqb lid (groups (save_settings st store)) =
    match Dict.get String.eqb lid (layer_attributes st) with
    | Some attrs =>
        Some (layer_group (layer_filters st) (mkGroup None None) lid attrs)
    | None => None
    end.
Proof.
  intros Hnd Hlid. unfold save_settings. simpl.
  rewrite save_fold_get by exact Hnd.
  now rewrite kept_groups by exact Hlid.
Qed.

(** X20: saving the settings and loading them into a new plugin object
    gives back the limit, and for each layer id what the two text formats
    give back: the attributes of the layers that have an entry, and the
    rules of those among them that have rules. *)
Theorem settings_roundtrip (st : Settings) (store : Store) (lid : string) :
  let st' := load_settings (save_settings st store) fresh_settings in
  NoDup (Dict.keys (layer_attributes st)) ->
  NoDup (Dict.keys (groups store)) ->
  lid <> "featureLimit" ->
  feature_limit st' = feature_limit st /\
  Dict.get String.eqb lid (layer_attributes st') =
    match Dict.get String.eqb lid (layer_attributes st) with
    | Some attrs => load_attributes (save_attributes attrs)
    | None => None
    end /\
  Dict.get String.eqb lid (layer_filters st') =
    match Dict.get String.eqb lid (layer_attributes st),
          Dict.get String.eqb lid (layer_filters st) with
    | Some _, Some rules => load_filters (settings_value (save_filters rules))
    | _, _ => None
    end.
Proof.
  intros st' Hnd Hstore Hlid. unfold st', load_settings.
  split; [now rewrite (proj1 (load_fold_limit _ _))|].
  assert (Hk : NoDup (Dict.keys (groups (save_settings st store)))).
  { unfold save_settings. simpl. apply save_fold_keys. now apply kept_groups_NoDup. }
  destruct (load_fold_get (groups (save_settings st store)) lid Hlid Hk
              (mkSettings (feature_visibility fresh_settings)
                 (layer_attributes fresh_settings) (layer_filters fresh_settings)
                 (match featureLimit_value (save_settings st store) with
                  | Some n => n | None => 0 end))) as [Ha Hf].
  rewrite Ha, Hf, save_settings_group by assumption.
  destruct (Dict.get String.eqb lid (layer_attributes st)) as [attrs|]; simpl;
    [|now split].
  unfold layer_group. simpl.
  destruct (Dict.get String.eqb lid (layer_filters st)) as [rules|]; simpl.
  - destruct (save_filters rules) as [txt|] eqn:E; simpl.
    + split; [now destruct (load_attributes (save_attributes attrs))|].
      now destruct (load_filters txt).
    + split; [now destruct (load_attributes (save_attributes attrs))|reflexivity].
  - split; [now destruct (load_attributes (save_attributes attrs))|reflexivity].
Qed.

(** X21: [save_settings] keeps the layers of [layer_attributes] and no
    other: whatever the store held and whatever rules the plugin holds
    for it, a layer without an attribute entry has no group after saving,
    so neither attributes nor rules come back for it. *)
Theorem rules_without_attributes_are_lost (st : Settings) (store : Store)
    (lid : string) :
  let st' := load_settings (save_settings st store) fresh_settings in
  NoDup (Dict.keys (layer_attributes st)) ->
  NoDup (Dict.keys (groups store)) ->
  lid <> "featureLimit" ->
  Dict.get String.eqb lid (layer_attributes st) = None ->
  Dict.get String.eqb lid (groups (save_settings st store)) = None /\
  Dict.get String.eqb lid (layer_attributes st') = None /\
  Dict.get String.eqb lid (layer_filters st') = None.
Proof.
  intros st' Hnd Hstore Hlid Hnone.
  assert (Hg : Dict.get String.eqb lid (groups (save_settings st store)) = None).
  { rewrite save_settings_group by assumption. now rewrite Hnone. }
  split; [exact Hg|].
  assert (Hk : NoDup (Dict.keys (groups (save_settings st store)))).
  { unfold save_settings. simpl. apply save_fold_keys. now apply kept_groups_NoDup. }
  unfold st', load_settings.
  destruct (load_fold_get (groups (save_settings st store)) lid Hlid Hk
              (mkSettings (feature_visibility fresh_settings)
                 (layer_attributes fresh_settings) (layer_filters fresh_settings)
                 (match featureLimit_value (save_settings st store) with
                  | Some n => n | None => 0 end))) as [Ha Hf].
  rewrite Ha, Hf, Hg. now split.
Qed.

(** ** Stored text that is not well formed *)

Lemma split_length (a : ascii) (s : string) :
  forall m : option nat,
    List.length (PyStr.split a m s) =
    S (match m with
       | None => count_char a s
       | Some n => Nat.min n (count_char a s)
       end).
Proof.
  induction s as [|c rest IH]; intros m.
  - simpl. now destruct m as [[|n]|].
  - cbn [PyStr.split count_char].
    destruct (Ascii.eqb_spec c a) as [->|Hne]; simpl.
    + destruct m as [[|n]|]; simpl.
      * pose proof (IH (Some 0%nat)) as H.
        destruct (PyStr.split a (Some 0%nat) rest); simpl in *; [discriminate|exact H].
      * now rewrite IH.
      * now rewrite IH.
    + pose proof (IH m) as H.
      destruct (PyStr.split a m rest); simpl in *; [discriminate|exact H].
Qed.

Lemma contains_char_count (a : ascii) (s : string) :
  PyStr.contains s (String a EmptyString) = negb (count_char a s =? 0)%nat.
Proof.
  induction s as [|c rest IH]; [reflexivity|].
  cbn [PyStr.contains PyStr.startswith count_char].
  rewrite IH, andb_true_r, Ascii.eqb_sym.
  now destruct (c =? a)%char.
Qed.

(** X22: a part of the stored rule text with fewer than two colons is
    skipped, whatever else it holds; a part with two colons or more
    always enters a rule, of the three texts the first two colons
    separate. *)
Theorem malformed_part_is_skipped (acc : Filters) (part : string) :
  ((count_char ":" part < 2)%nat -> load_filter_part acc part = acc) /\
  ((2 <= count_char ":" part)%nat ->
   exists p0 p1 p2,
     PyStr.split ":" (Some 2%nat) part = [p0; p1; p2] /\
     load_filter_part acc part =
       Dict.set String.eqb (unescape p0)
         (mkFilterData (unescape p1) (unescape p2)) acc).
Proof.
  pose proof (split_length ":" part (Some 2%nat)) as Hlen.
  pose proof (contains_char_count ":" part) as Hc.
  unfold load_filter_part. split.
  - intros Hlt. rewrite Hc.
    destruct (count_char ":" part) as [|[|n]] eqn:E; simpl; [reflexivity| |lia].
    simpl in Hlen.
    destruct (PyStr.split ":" (Some 2%nat) part) as [|p0 [|p1 [|p2 rest]]];
      simpl in Hlen; try reflexivity; discriminate.
  - intros Hge. rewrite Hc.
    destruct (count_char ":" part) as [|[|n]] eqn:E; try lia. simpl.
    simpl in Hlen.
    destruct (PyStr.split ":" (Some 2%nat) part) as [|p0 [|p1 [|p2 [|p3 rest]]]];
      simpl in Hlen; try discriminate.
    exists p0, p1, p2. now split.
Qed.

(** ** The settings dialog *)

Lemma rstrip_idempotent (s : string) : PyStr.rstrip (PyStr.rstrip s) = PyStr.rstrip s.
Proof.
  induction s as [|c rest IH]; [reflexivity|].
  cbn [PyStr.rstrip].
  destruct (PyStr.rstrip rest) as [|c' r'] eqn:E.
  - destruct (PyStr.isspace c) eqn:Ec; [reflexivity|].
    cbn [PyStr.rstrip]. now rewrite Ec.
  - cbn [PyStr.rstrip]. cbn [PyStr.rstrip] in IH. now rewrite IH.
Qed.

Lemma lstrip_head (s : string) :
  PyStr.lstrip s = EmptyString \/
  exists c r, PyStr.lstrip s = String c r /\ PyStr.isspace c = false.
Proof.
  induction s as [|c rest IH]; [now left|].
  cbn [PyStr.lstrip]. destruct (PyStr.isspace c) eqn:Ec; [exact IH|].
  right. now exists c, rest.
Qed.

Lemma strip_idempotent (s : string) : PyStr.strip (PyStr.strip s) = PyStr.strip s.
Proof.
  unfold PyStr.strip.
  assert (H : PyStr.lstrip (PyStr.rstrip (PyStr.lstrip s)) = PyStr.rstrip (PyStr.lstrip s)).
  { destruct (lstrip_head s) as [->|(c & r & -> & Hc)]; [reflexivity|].
    cbn [PyStr.rstrip]. rewrite Hc.
    destruct (PyStr.rstrip r); cbn [PyStr.lstrip]; now rewrite Hc. }
  rewrite H. apply rstrip_idempotent.
Qed.

Lemma dict_set_Forall_snd {V : Type} (Q : V -> Prop) (k : string) (v : V)
    (d : Dict.dict string V) :
  Q v -> Forall (fun e => Q (snd e)) d ->
  Forall (fun e => Q (snd e)) (Dict.set String.eqb k v d).
Proof.
  intros Hv Hd. induction d as [|[k' v'] rest IH]; simpl.
  - constructor; [exact Hv|constructor].
  - inversion Hd; subst. destruct (k =? k')%string; constructor; auto.
Qed.

Lemma currentText_known (w : FilterWidgets) :
  (currentIndex w < List.length combo_items)%nat ->
  currentText w <> "No filter" ->
  In (currentText w) known_kinds.
Proof.
  unfold currentText. intros Hlt Hne.
  destruct (currentIndex w) as [|[|[|[|[|[|[|n]]]]]]]; simpl in *;
    try (exfalso; lia); tauto.
Qed.

(** X23: every rule [get_filters] reads off the dialog is one the
    evaluator applies as it stands: its kind is one of the six the
    evaluator knows, its text is not blank and is already stripped. *)
Theorem get_filters_gives_known_rules (d : LayerWidgets) :
  Forall (fun e => (currentIndex (snd e) < List.length combo_items)%nat) (filters d) ->
  Forall (fun e : string * FilterData =>
            In (filter_type (snd e)) known_kinds /\
            filter_value (snd e) <> EmptyString /\
            PyStr.strip (filter_value (snd e)) = filter_value (snd e))
    (get_filters d).
Proof.
  intros Hidx. unfold get_filters.
  generalize (@nil (string * FilterData)) (Forall_nil
    (fun e : string * FilterData =>
       In (filter_type (snd e)) known_kinds /\
       filter_value (snd e) <> EmptyString /\
       PyStr.strip (filter_value (snd e)) = filter_value (snd e))).
  induction (filters d) as [|[k w] rest IH]; intros acc Hacc; simpl; [exact Hacc|].
  inversion Hidx as [|? ? Hw Hrest]; subst. simpl in Hw.
  apply (IH Hrest). unfold widgets_rule.
  destruct (String.eqb_spec (currentText w) "No filter") as [E|E]; simpl; [exact Hacc|].
  destruct (String.eqb_spec (PyStr.strip (text w)) EmptyString) as [E2|E2]; simpl;
    [exact Hacc|].
  apply (dict_set_Forall_snd
    (fun r : FilterData =>
       In (filter_type r) known_kinds /\
       filter_value r <> EmptyString /\
       PyStr.strip (filter_value r) = filter_value r)); [|exact Hacc].
  simpl. split; [now apply currentText_known|].
  split; [exact E2|apply strip_idempotent].
Qed.

(** The step of [dialog_init] for one field. *)
Lemma dialog_init_fold (fs : list string) :
  forall d : LayerWidgets,
    NoDup (Dict.keys (checkboxes d) ++ fs) ->
    NoDup (Dict.keys (filters d) ++ fs) ->
    let d' :=
      fold_left
        (fun (d0 : LayerWidgets) (name : string) =>
           if negb (name =? "_fvt_vis")%string then
             mkLayerWidgets
               (Dict.set String.eqb name false (checkboxes d0))
               (Dict.set String.eqb name (mkFilterWidgets 0 EmptyString) (filters d0))
           else d0) fs d in
    checkboxes d' =
      (checkboxes d ++
       map (fun f => (f, false))
         (filter (fun f => negb (f =? "_fvt_vis")%string) fs))%list /\
    filters d' =
      (filters d ++
       map (fun f => (f, mkFilterWidgets 0 EmptyString))
         (filter (fun f => negb (f =? "_fvt_vis")%string) fs))%list.
Proof.
  induction fs as [|f rest IH]; intros d Hc Hf; cbv zeta; simpl.
  - now rewrite !app_nil_r.
  - assert (Hcf : ~ In f (Dict.keys (checkboxes d)) /\ NoDup (Dict.keys (checkboxes d) ++ rest)).
    { split; [|now apply NoDup_remove_1 in Hc].
      apply NoDup_remove_2 in Hc. intros Hin. apply Hc. apply in_or_app. now left. }
    assert (Hff : ~ In f (Dict.keys (filters d)) /\ NoDup (Dict.keys (filters d) ++ rest)).
    { split; [|now apply NoDup_remove_1 in Hf].
      apply NoDup_remove_2 in Hf. intros Hin. apply Hf. apply in_or_app. now left. }
    destruct (f =? "_fvt_vis")%string; simpl.
    + apply IH; tauto.
    + rewrite !dict_set_fresh by tauto.
      specialize (IH (mkLayerWidgets (checkboxes d ++ [(f, false)])%list
                        (filters d ++ [(f, mkFilterWidgets 0 EmptyString)])%list)).
      cbv zeta in IH. simpl in IH.
      destruct IH as [H1 H2].
      * unfold Dict.keys. rewrite map_app, <- app_assoc. simpl. exact Hc.
      * unfold Dict.keys. rewrite map_app, <- app_assoc. simpl. exact Hf.
      * rewrite H1, H2, <- !app_assoc. now split.
Qed.

Lemma dialog_init_widgets (layer_fields : list string) :
  NoDup layer_fields ->
  checkboxes (dialog_init layer_fields) =
    map (fun f => (f, false))
      (filter (fun f => negb (f =? "_fvt_vis")%string) layer_fields) /\
  filters (dialog_init layer_fields) =
    map (fun f => (f, mkFilterWidgets 0 EmptyString))
      (filter (fun f => negb (f =? "_fvt_vis")%string) layer_fields).
Proof.
  intros Hnd. unfold dialog_init.
  destruct (dialog_init_fold layer_fields (mkLayerWidgets [] []) Hnd Hnd) as [H1 H2].
  cbv zeta in H1, H2. now rewrite H1, H2.
Qed.

(** X24: the dialog gives back the selected names that are fields of the
    layer, in the order of the fields, and never the reserved field. *)
Theorem selected_attributes_roundtrip (layer_fields selected : list string) :
  NoDup layer_fields ->
  get_selected_attributes
    (set_selected_attributes selected (dialog_init layer_fields)) =
  filter (fun f => negb (f =? "_fvt_vis")%string
                   && existsb (String.eqb f) selected) layer_fields.
Proof.
  intros Hnd. unfold get_selected_attributes, set_selected_attributes. simpl.
  rewrite (proj1 (dialog_init_widgets layer_fields Hnd)).
  clear Hnd. induction layer_fields as [|f rest IH]; simpl; [reflexivity|].
  destruct (f =? "_fvt_vis")%string; simpl; [exact IH|].
  destruct (existsb (String.eqb f) selected); simpl; now rewrite IH.
Qed.

Lemma rule_widgets_rule (d : FilterData) :
  widgets_rule (rule_widgets d) = dialog_rule d.
Proof.
  destruct d as [kind v].
  unfold widgets_rule, rule_widgets, dialog_rule, currentText, combo_items, known_kinds.
  cbn [filter_type filter_value currentIndex text findText existsb].
  repeat match goal with
  | |- context [(?a =? kind)%string] =>
      destruct (String.eqb_spec a kind) as [<-|?]; [reflexivity|]
  end.
  repeat match goal with
  | |- context [(kind =? ?a)%string] =>
      destruct (String.eqb_spec kind a) as [->|?]; [congruence|]
  end.
  reflexivity.
Qed.

Lemma set_fold_keys (rules : Filters) :
  forall ws : Dict.dict string FilterWidgets,
    Dict.keys
      (fold_left
         (fun (ws0 : Dict.dict string FilterWidgets) (entry : string * FilterData) =>
            if Dict.mem String.eqb (fst entry) ws0
            then Dict.set String.eqb (fst entry) (rule_widgets (snd entry)) ws0
            else ws0) rules ws) = Dict.keys ws.
Proof.
  induction rules as [|[k d] rest IH]; intros ws; simpl; [reflexivity|].
  rewrite IH. destruct (Dict.mem String.eqb k ws) eqn:E; [|reflexivity].
  now rewrite (dict_keys_set String.eqb), E.
Qed.

Lemma set_fold_get (rules : Filters) (f : string) :
  NoDup (Dict.keys rules) ->
  forall ws : Dict.dict string FilterWidgets,
    Dict.get String.eqb f
      (fold_left
         (fun (ws0 : Dict.dict string FilterWidgets) (entry : string * FilterData) =>
            if Dict.mem String.eqb (fst entry) ws0
            then Dict.set String.eqb (fst entry) (rule_widgets (snd entry)) ws0
            else ws0) rules ws) =
    match Dict.get String.eqb f ws with
    | None => None
    | Some w0 =>
        match Dict.get String.eqb f rules with
        | Some d => Some (rule_widgets d)
        | None => Some w0
        end
    end.
Proof.
  induction rules as [|[k d] rest IH]; intros Hnd ws; simpl.
  - now destruct (Dict.get String.eqb f ws).
  - inversion Hnd as [|? ? Hnin Hnd']; subst.
    rewrite (IH Hnd'). unfold Dict.mem.
    destruct (String.eqb_spec f k) as [->|Hne].
    + apply (dict_get_none String.eqb String.eqb_eq) in Hnin. rewrite Hnin.
      destruct (Dict.get String.eqb k ws) eqn:E.
      * now rewrite (dict_get_set_same String.eqb String.eqb_eq).
      * now rewrite E.
    + destruct (Dict.get String.eqb k ws) eqn:E.
      * now rewrite (dict_get_set_other String.eqb String.eqb_eq) by exact Hne.
      * reflexivity.
Qed.

Lemma get_fold_get (ws : Dict.dict string FilterWidgets) (f : string) :
  NoDup (Dict.keys ws) ->
  forall acc : Filters,
    Dict.get String.eqb f
      (fold_left
         (fun (layer_filters : Filters) (entry : string * FilterWidgets) =>
            match widgets_rule (snd entry) with
            | Some rule => Dict.set String.eqb (fst entry) rule layer_filters
            | None => layer_filters
            end) ws acc) =
    match Dict.get String.eqb f ws with
    | Some w =>
        match widgets_rule w with
        | Some r => Some r
        | None => Dict.get String.eqb f acc
        end
    | None => Dict.get String.eqb f acc
    end.
Proof.
  induction ws as [|[k w] rest IH]; intros Hnd acc; simpl; [reflexivity|].
  inversion Hnd as [|? ? Hnin Hnd']; subst.
  rewrite (IH Hnd').
  destruct (String.eqb_spec f k) as [->|Hne].
  - apply (dict_get_none String.eqb String.eqb_eq) in Hnin. rewrite Hnin.
    destruct (widgets_rule w); [|reflexivity].
    now rewrite (dict_get_set_same String.eqb String.eqb_eq).
  - destruct (widgets_rule w);
      [rewrite (dict_get_set_other String.eqb String.eqb_eq) by exact Hne|];
      reflexivity.
Qed.

Lemma dict_get_constant {V : Type} (v : V) (f : string) (l : list string) :
  Dict.get String.eqb f (map (fun x => (x, v)) l) =
  if existsb (String.eqb f) l then Some v else None.
Proof.
  induction l as [|x rest IH]; simpl; [reflexivity|].
  destruct (f =? x)%string; simpl; [reflexivity|exact IH].
Qed.

Lemma existsb_filter_reserved (f : string) (l : list string) :
  existsb (String.eqb f) (filter (fun x => negb (x =? "_fvt_vis")%string) l) =
  existsb (String.eqb f) l && negb (f =? "_fvt_vis")%string.
Proof.
  induction l as [|x rest IH]; simpl; [reflexivity|].
  destruct (String.eqb_spec x "_fvt_vis") as [->|Hx]; simpl.
  - rewrite IH. destruct (String.eqb_spec f "_fvt_vis"); simpl;
      [now rewrite andb_false_r|reflexivity].
  - rewrite IH. destruct (String.eqb_spec f x) as [->|]; simpl; [|reflexivity].
    destruct (String.eqb_spec x "_fvt_vis"); [contradiction|reflexivity].
Qed.

(** X25: rules put into the dialog by [set_filters] and read back by
    [get_filters] come back for the fields of the layer only (the
    reserved field left out), with their text stripped; a rule of a kind
    the drop-down does not have, or with a blank text, does not come
    back. *)
Theorem dialog_filters_roundtrip (layer_fields : list string) (rules : Filters)
    (f : string) :
  NoDup layer_fields ->
  NoDup (Dict.keys rules) ->
  Dict.get String.eqb f (get_filters (set_filters rules (dialog_init layer_fields))) =
    if existsb (String.eqb f) layer_fields && negb (f =? "_fvt_vis")%string
    then match Dict.get String.eqb f rules with
         | Some d => dialog_rule d
         | None => None
         end
    else None.
Proof.
  intros Hfields Hrules. unfold get_filters, set_filters. simpl.
  destruct (dialog_init_widgets layer_fields Hfields) as [_ Hw].
  rewrite get_fold_get.
  - rewrite set_fold_get by exact Hrules. rewrite Hw.
    rewrite dict_get_constant, existsb_filter_reserved.
    destruct (existsb (String.eqb f) layer_fields && negb (f =? "_fvt_vis")%string);
      [|reflexivity].
    destruct (Dict.get String.eqb f rules) as [d|]; [|reflexivity].
    rewrite rule_widgets_rule. now destruct (dialog_rule d).
  - rewrite set_fold_keys, Hw. unfold Dict.keys. rewrite map_map. simpl.
    rewrite map_id. now apply NoDup_filter.
Qed.

(** ** The further properties on concrete layers *)

(** The flag of feature 2 of the layer with written flags is set again:
    the feature reads as visible. *)
Lemma toggle_sets_flag_witness :
  In (mkFeature 2 [PyString "Bob"; PyInt 1])
    (features (layer (snd (update_feature_visibility_field 2 true
                             (mkWorld Scenes.toggled_layer [] []))))) /\
  is_visible 1 (mkFeature (PF := WholeFloat) 2 [PyString "Bob"; PyInt 1]) = true.
Proof.
  assert (H1 : indexOf (fields Scenes.toggled_layer) vis_field_name <> -1)
    by (vm_compute; discriminate).
  assert (Hin : In (mkFeature 2 [PyString "Bob"; PyInt 1])
    (features (layer (snd (update_feature_visibility_field 2 true
                             (mkWorld Scenes.toggled_layer [] []))))))
    by (simpl; tauto).
  split; [exact Hin|].
  exact (proj1 (proj2 (proj2
    (toggle_sets_flag 2 true (mkWorld Scenes.toggled_layer [] []) H1 eq_refl)))
    (mkFeature 2 [PyString "Bob"; PyInt 1]) Hin eq_refl).
Defined.

(** Feature 2 is shown, hidden and shown: it reads as visible. *)
Lemma last_toggle_wins_witness :
  In (mkFeature 2 [PyString "Bob"; PyInt 1])
    (features (layer
      (fold_left (fun w0 b0 => snd (update_feature_visibility_field 2 b0 w0))
         ([true; false] ++ [true]) (mkWorld Scenes.toggled_layer [] [])))) /\
  is_visible 1 (mkFeature (PF := WholeFloat) 2 [PyString "Bob"; PyInt 1]) = true.
Proof.
  assert (H1 : indexOf (fields Scenes.toggled_layer) vis_field_name <> -1)
    by (vm_compute; discriminate).
  assert (Hin : In (mkFeature 2 [PyString "Bob"; PyInt 1])
    (features (layer
      (fold_left (fun w0 b0 => snd (update_feature_visibility_field 2 b0 w0))
         ([true; false] ++ [true]) (mkWorld Scenes.toggled_layer [] [])))))
    by (simpl; tauto).
  split; [exact Hin|].
  exact (last_toggle_wins 2 [true; false] true (mkWorld Scenes.toggled_layer [] [])
           H1 eq_refl (@Forall_nil bool (fun a => a = true))
           (mkFeature 2 [PyString "Bob"; PyInt 1]) Hin eq_refl).
Defined.

(** Hiding feature 1 while the layer is edited: the flags stay. *)
Lemma checkbox_on_editable_layer_witness :
  features (layer (snd (on_feature_checkbox_changed [] 1 false
                          (mkWorld Scenes.editing_layer [] [])))) =
  features Scenes.editing_layer.
Proof.
  assert (H1 : indexOf (fields Scenes.editing_layer) vis_field_name <> -1)
    by (vm_compute; discriminate).
  exact (proj1 (checkbox_on_editable_layer [] 1 false
                  (mkWorld Scenes.editing_layer [] []) H1 eq_refl)).
Defined.

(** The field is made on the layer that lacks it. *)
Lemma ensure_creates_field_witness :
  fst (ensure_visibility_field (mkWorld Examples.plain_layer [] [])) = true.
Proof.
  assert (H1 : subsetString Examples.plain_layer <> vis_subset_string)
    by (vm_compute; discriminate).
  exact (proj1 (ensure_creates_field (mkWorld Examples.plain_layer [] [])
                  eq_refl eq_refl eq_refl H1)).
Defined.

(** The field is not made on a layer in edit mode, nor when the host
    rejects the commit. *)
Lemma ensure_refused_witness :
  ensure_visibility_field (mkWorld Scenes.editing_plain_layer [] []) =
    (false, mkWorld Scenes.editing_plain_layer [] []) /\
  fst (ensure_visibility_field (mkWorld Examples.plain_layer [false] [])) = false.
Proof.
  split.
  - exact (proj1 (ensure_refused (mkWorld Scenes.editing_plain_layer [] []) eq_refl)
             eq_refl).
  - exact (proj1 (proj2 (ensure_refused (mkWorld Examples.plain_layer [false] [])
                           eq_refl) eq_refl eq_refl)).
Defined.

(** Making the field and tearing it down gives the plain layer back. *)
Lemma cleanup_undoes_ensure_witness :
  cleanup_layer true
    (layer (snd (ensure_visibility_field (mkWorld Examples.plain_layer [] [])))) =
  Examples.plain_layer.
Proof.
  apply (cleanup_undoes_ensure (mkWorld Examples.plain_layer [] []));
    try reflexivity.
  - constructor.
  - repeat constructor.
Defined.

(** A second teardown of the layer with written flags changes nothing. *)
Lemma cleanup_idempotent_witness :
  cleanup_layer true (cleanup_layer true Scenes.toggled_layer) =
  cleanup_layer true Scenes.toggled_layer.
Proof.
  apply (proj2 (cleanup_idempotent true true Scenes.toggled_layer)).
  constructor; [simpl; intros [H|[]]; discriminate H|].
  constructor; [intros []|constructor].
Defined.

(** On the layer with written flags the host enumerates feature 1 only,
    the one the panel reads as visible. On the layer with a null flag the
    host enumerates feature 1 only as well, while the panel reads both
    records as visible. *)
Lemma map_shows_what_panel_reads_witness :
  (getFeatures (layer (snd (update_layer_visibility
                              (mkWorld Scenes.written_layer [] [])))) =
   filter (is_visible 1) (features Scenes.written_layer)) /\
  (is_visible 1 Scenes.null_feature = true /\
   subset_accepts
     (layer (snd (update_layer_visibility (mkWorld Scenes.null_flag_layer [] []))))
     Scenes.null_feature = false) /\
  map id (getFeatures (layer (snd (update_layer_visibility
                                     (mkWorld Scenes.null_flag_layer [] []))))) = [1] /\
  map id (filter (is_visible 1) (features Scenes.null_flag_layer)) = [1; 9].
Proof.
  assert (H1 : indexOf (fields Scenes.written_layer) vis_field_name <> -1)
    by (vm_compute; discriminate).
  assert (H2 : indexOf (fields Scenes.null_flag_layer) vis_field_name <> -1)
    by (vm_compute; discriminate).
  split; [|split; [|split]].
  - apply (proj1 (proj2 (map_shows_what_panel_reads
                           (mkWorld Scenes.written_layer [] []) H1))).
    repeat constructor.
  - exact (proj1 (proj2 (proj2 (map_shows_what_panel_reads
                                  (mkWorld Scenes.null_flag_layer [] []) H2)))
             Scenes.null_feature eq_refl).
  - reflexivity.
  - reflexivity.
Defined.

(** After feature 2 is shown again the flags are still 0 or 1. *)
Lemma checkbox_keeps_map_in_step_witness :
  plugin_flags (layer (snd (on_feature_checkbox_changed [] 2 true
                              (mkWorld Scenes.written_layer [] [])))).
Proof.
  assert (H1 : indexOf (fields Scenes.written_layer) vis_field_name <> -1)
    by (vm_compute; discriminate).
  assert (H2 : plugin_flags Scenes.written_layer) by (repeat constructor).
  exact (proj1 (checkbox_keeps_map_in_step [] 2 true
                  (mkWorld Scenes.written_layer [] []) H1 eq_refl H2)).
Defined.

(** With the subset expression on the layer only checked rows are
    listed. *)
Lemma hidden_features_leave_the_list_witness :
  Forall (fun r : Row => snd r = true /\ In (snd (fst r)) (features Scenes.filtered_layer))
    (snd (populate (mkSettings [] [] [] 0) Scenes.filtered_layer)).
Proof.
  exact (hidden_features_leave_the_list (mkSettings [] [] [] 0)
           Scenes.filtered_layer eq_refl).
Defined.

(** Feature 2 is tracked as visible though its flag is 0: the entry
    stays. *)
Lemma populate_keeps_tracked_witness :
  Dict.get Z.eqb 2
    (fst (populate (mkSettings [("L3", [(2, true)])] [] [] 0) Scenes.toggled_layer)) =
  Some true.
Proof.
  exact (proj1 (populate_keeps_tracked
                  (mkSettings [("L3", [(2, true)])] [] [] 0) Scenes.toggled_layer)
           2 true eq_refl).
Defined.

(** Two rules in either order. *)
Lemma rules_are_a_conjunction_witness :
  feature_matches_filters (mkFeature 1 [PyString "Jack"; PyString "250"])
    Examples.plain_layer
    [("name", mkFilterData "Contains" "ac"); ("pop", mkFilterData "Less than" "9")] =
  feature_matches_filters (mkFeature 1 [PyString "Jack"; PyString "250"])
    Examples.plain_layer
    [("pop", mkFilterData "Less than" "9"); ("name", mkFilterData "Contains" "ac")].
Proof.
  apply (proj2 (rules_are_a_conjunction
                  (mkFeature 1 [PyString "Jack"; PyString "250"]) Examples.plain_layer
                  [("name", mkFilterData "Contains" "ac");
                   ("pop", mkFilterData "Less than" "9")]
                  [("pop", mkFilterData "Less than" "9");
                   ("name", mkFilterData "Contains" "ac")])).
  apply perm_swap.
Defined.

(** A rule text in capitals. *)
Lemma text_rules_ignore_case_witness :
  rule_matches (PF := WholeFloat) "Starts with" (PyString "Jack") "JA" =
  rule_matches (PF := WholeFloat) "Starts with" (PyString "Jack") (PyStr.lower "JA").
Proof.
  apply (proj1 (text_rules_ignore_case (PF := WholeFloat) "Starts with" "JA" "Jack"
                  (PyString "Jack") (or_intror (or_intror (or_introl eq_refl))))).
Defined.

(** Feature 3 has [None] for pop and is rejected; a record whose pop is
    the host's null is accepted by the rule "Contains ul". *)
Lemma missing_value_in_text_rules_witness :
  feature_matches_filters (mkFeature 3 [PyString "Jacky"; PyNone])
    Examples.plain_layer [("pop", mkFilterData "Contains" "5")] = false /\
  feature_matches_filters (mkFeature 4 [PyString "Jill"; NULL])
    Examples.plain_layer [("pop", mkFilterData "Contains" "ul")] = true.
Proof.
  assert (Hidx : 0 <= indexOf (fields Examples.plain_layer) "pop")
    by (vm_compute; discriminate).
  assert (H5 : PyStr.strip "5" <> EmptyString) by (vm_compute; discriminate).
  assert (Hul : PyStr.strip "ul" <> EmptyString) by (vm_compute; discriminate).
  split.
  - exact (proj1 (missing_value_in_text_rules
                    (mkFeature 3 [PyString "Jacky"; PyNone])
                    Examples.plain_layer "pop" "Contains" "5"
                    (or_introl eq_refl) H5 Hidx) eq_refl).
  - exact (proj2 (proj2 (missing_value_in_text_rules
                    (mkFeature 4 [PyString "Jill"; NULL])
                    Examples.plain_layer "pop" "Contains" "ul"
                    (or_introl eq_refl) Hul Hidx)) eq_refl eq_refl).
Defined.

(** Jack equals jack, so it starts with it. *)
Lemma text_kinds_are_ordered_witness :
  rule_matches (PF := WholeFloat) "Starts with" (PyString "Jack") "jack" = true.
Proof.
  exact (proj1 (proj1 (text_kinds_are_ordered (PF := WholeFloat)
                         (PyString "Jack") "jack") eq_refl)).
Defined.

(** Selecting the plain layer, then selecting it again. *)
Lemma reselecting_lists_visible_only_witness :
  subsetString
    (layer (snd (on_layer_selected (Examples.plain_settings 0)
                   (mkWorld Examples.plain_layer [] [])))) = vis_subset_string.
Proof.
  exact (proj1 (reselecting_lists_visible_only (Examples.plain_settings 0)
                  (Examples.plain_settings 0)
                  (mkWorld Examples.plain_layer [] []) eq_refl)).
Defined.

(** Two attribute names, and one name with a comma. *)
Lemma attributes_roundtrip_witness :
  match load_attributes (save_attributes ["name"; "pop"]) with
  | Some l => l
  | None => []
  end = ["name"; "pop"] /\
  load_attributes (save_attributes ["a" ++ "," ++ "b"]) = Some ["a"; "b"].
Proof.
  split.
  - apply (proj1 (attributes_roundtrip ["name"; "pop"])).
    + repeat constructor.
    + discriminate.
  - apply (proj2 (attributes_roundtrip ["a" ++ "," ++ "b"]) "a" "b"); reflexivity.
Defined.

(** The stored settings come back for layer L2: the limit, the two
    attribute names and the rule with a colon in its text. *)
Lemma settings_roundtrip_witness :
  let st' := load_settings (save_settings Scenes.stored_settings (mkStore None []))
               fresh_settings in
  feature_limit st' = 25 /\
  Dict.get String.eqb "L2" (layer_attributes st') = Some ["name"; "pop"] /\
  Dict.get String.eqb "L2" (layer_filters st') =
    Some [("name", mkFilterData "Contains" "a:c")].
Proof.
  assert (H1 : NoDup (Dict.keys (layer_attributes Scenes.stored_settings))).
  { simpl. constructor; [simpl; intros [H|[]]; discriminate H|].
    constructor; [intros []|constructor]. }
  assert (H2 : NoDup (Dict.keys (groups (mkStore None [])))) by constructor.
  assert (H3 : "L2" <> "featureLimit") by discriminate.
  exact (settings_roundtrip Scenes.stored_settings (mkStore None []) "L2" H1 H2 H3).
Defined.

(** Layer L4 has rules but no attribute entry: its rules do not come
    back. *)
Lemma rules_without_attributes_are_lost_witness :
  Dict.get String.eqb "L4" (layer_filters Scenes.stored_settings) =
    Some [("name", mkFilterData "Equals" "x")] /\
  Dict.get String.eqb "L4"
    (layer_filters
       (load_settings (save_settings Scenes.stored_settings (mkStore None []))
          fresh_settings)) = None.
Proof.
  assert (H1 : NoDup (Dict.keys (layer_attributes Scenes.stored_settings))).
  { simpl. constructor; [simpl; intros [H|[]]; discriminate H|].
    constructor; [intros []|constructor]. }
  assert (H2 : NoDup (Dict.keys (groups (mkStore None [])))) by constructor.
  assert (H3 : "L4" <> "featureLimit") by discriminate.
  split; [reflexivity|].
  exact (proj2 (proj2 (rules_without_attributes_are_lost Scenes.stored_settings
                         (mkStore None []) "L4" H1 H2 H3 eq_refl))).
Defined.

(** The rules read off a dialog that was given the offered rules. *)
Lemma get_filters_gives_known_rules_witness :
  Forall (fun e : string * FilterData =>
            In (filter_type (snd e)) known_kinds /\
            filter_value (snd e) <> EmptyString /\
            PyStr.strip (filter_value (snd e)) = filter_value (snd e))
    (get_filters (set_filters Scenes.offered_rules
                    (dialog_init ["name"; "pop"; "kind"; "_fvt_vis"]))).
Proof.
  apply get_filters_gives_known_rules.
  repeat constructor.
Defined.

(** The selection of pop, the reserved field and a field the layer does
    not have. *)
Lemma selected_attributes_roundtrip_witness :
  get_selected_attributes
    (set_selected_attributes ["pop"; "_fvt_vis"; "gone"]
       (dialog_init ["name"; "pop"; "_fvt_vis"])) = ["pop"].
Proof.
  apply (selected_attributes_roundtrip ["name"; "pop"; "_fvt_vis"]
           ["pop"; "_fvt_vis"; "gone"]).
  repeat constructor; simpl; intuition discriminate.
Defined.

(** The offered rules through the dialog: the rule on the name comes back
    stripped, the rule of the unknown kind does not come back. *)
Lemma dialog_filters_roundtrip_witness :
  Dict.get String.eqb "name"
    (get_filters (set_filters Scenes.offered_rules
                    (dialog_init ["name"; "pop"; "kind"; "_fvt_vis"]))) =
    Some (mkFilterData "Contains" "ac") /\
  Dict.get String.eqb "pop"
    (get_filters (set_filters Scenes.offered_rules
                    (dialog_init ["name"; "pop"; "kind"; "_fvt_vis"]))) = None.
Proof.
  split.
  - apply (dialog_filters_roundtrip ["name"; "pop"; "kind"; "_fvt_vis"]
             Scenes.offered_rules "name");
      repeat constructor; simpl; intuition discriminate.
  - apply (dialog_filters_roundtrip ["name"; "pop"; "kind"; "_fvt_vis"]
             Scenes.offered_rules "pop");
      repeat constructor; simpl; intuition discriminate.
Defined.

(** A stored part with one colon only. *)
Lemma malformed_part_is_skipped_witness :
  load_filter_part [("a", mkFilterData "Equals" "x")] "name:Contains" =
    [("a", mkFilterData "Equals" "x")].
Proof.
  apply (proj1 (malformed_part_is_skipped [("a", mkFilterData "Equals" "x")]
                  "name:Contains")).
  simpl. lia.
Defined.
